(** * Output validation of the Code node sandbox

    A shallow embedding of [packages/nodes-base/nodes/Code/Sandbox.ts]:
    the text provider [getTextKey], the item validator [validateItem],
    the top-level key guard [validateTopLevelKeys] and the two public
    entry points [validateRunCodeEachItem] and [validateRunCodeAllItems].

    Exceptions are modelled by an error monad over [Exception]; the
    values returned by user code are modelled by [Value]. *)

From Stdlib Require Import String Ascii List Bool Arith ZArith Lia.
From Stdlib Require Import Decimal DecimalString.
Import ListNotations.
Local Open Scope list_scope.
Local Open Scope string_scope.
#[local] Set Warnings "-register-all".

(* ================================================================== *)
(** ** Values returned by user code *)
(* ================================================================== *)

(** The run-time data values the validators can be handed: [undefined],
    [null], booleans, numbers, strings, arrays and plain objects.  Numbers
    are the integer-valued ones (the code only looks at their type tag
    and, in one description, at their decimal rendering).  The properties
    of an object are listed in the order in which the engine enumerates
    them, which is the order of both [Object.keys] and [for ... in]; an
    object has at most one property of a given name, and [lookup] reads the
    first. *)
Inductive Value : Type :=
| VUndefined
| VNull
| VBoolean (b : bool)
| VNumber (n : Z)
| VString (s : string)
| VArray (elems : list Value)
| VObject (props : list (string * Value)).

(** [typeof v] *)
Definition typeof (v : Value) : string :=
  match v with
  | VUndefined => "undefined"
  | VNull => "object"
  | VBoolean _ => "boolean"
  | VNumber _ => "number"
  | VString _ => "string"
  | VArray _ => "object"
  | VObject _ => "object"
  end.

(** [Array.isArray(v)] *)
Definition Array_isArray (v : Value) : bool :=
  match v with
  | VArray _ => true
  | _ => false
  end.

(** [v === undefined] *)
Definition is_undefined (v : Value) : bool :=
  match v with
  | VUndefined => true
  | _ => false
  end.

(** The decimal rendering of an array index. *)
Definition index_key (i : nat) : string :=
  NilZero.string_of_uint (Nat.to_uint i).

Definition index_keys (n : nat) : list string :=
  map index_key (seq 0 n).

(** The own enumerable string keys of a value, in enumeration order.
    Arrays and strings expose their indices; the other primitives, and
    [null] and [undefined], expose nothing. *)
Definition own_keys (v : Value) : list string :=
  match v with
  | VObject props => map fst props
  | VArray elems => index_keys (List.length elems)
  | VString s => index_keys (String.length s)
  | _ => []
  end.

(** First binding of a key in a property list. *)
Fixpoint lookup (k : string) (props : list (string * Value)) : option Value :=
  match props with
  | [] => None
  | (k', v) :: rest => if String.eqb k' k then Some v else lookup k rest
  end.

(** [v.name] for a name that is not an array index nor [length]: only an
    object can carry it. *)
Definition get (v : Value) (name : string) : Value :=
  match v with
  | VObject props =>
      match lookup name props with
      | Some x => x
      | None => VUndefined
      end
  | _ => VUndefined
  end.

(** The string a template literal interpolates for a value. *)
Fixpoint ToString (v : Value) : string :=
  match v with
  | VUndefined => "undefined"
  | VNull => "null"
  | VBoolean true => "true"
  | VBoolean false => "false"
  | VNumber n => NilZero.string_of_int (Z.to_int n)
  | VString s => s
  | VArray elems =>
      String.concat ","
        (map (fun e => match e with
                       | VUndefined | VNull => EmptyString
                       | _ => ToString e
                       end) elems)
  | VObject _ => "[object Object]"
  end.

(** Truthiness of a string, and of a string that may be [null] or
    [undefined]. *)
Definition truthy_string (s : string) : bool :=
  negb (String.eqb s EmptyString).

Definition truthy_opt_string (o : option string) : bool :=
  match o with
  | Some s => truthy_string s
  | None => false
  end.

(** Truthiness of an optional boolean option field. *)
Definition truthy_opt_bool (o : option bool) : bool :=
  match o with
  | Some b => b
  | None => false
  end.

(* ================================================================== *)
(** ** Errors *)
(* ================================================================== *)

(** Modelled from the spec: the [ValidationError] class is declared in
    [./ValidationError], which is not among the sources.  The spec gives
    it as a message, a longer description and an optional item index;
    the record below holds the constructor's arguments. *)
Record ValidationErrorFields : Type := mkValidationError {
  message : string;
  description : string;
  itemIndex : option nat
}.

(** What a call can throw: a plain [ValidationError], an instance of its
    subclass [ReservedKeyFoundError], a [TypeError] of the engine (reading
    a property of [null] or [undefined]), or whatever the external
    normalizer throws. *)
Inductive Exception : Type :=
| ValidationError (e : ValidationErrorFields)
| ReservedKeyFound (e : ValidationErrorFields)
| TypeError
| NormalizerFailure (msg : string).

(** The double-quote character, as a string. *)
Definition dquote : string := String (ascii_of_nat 34) EmptyString.

(** [new ReservedKeyFoundError(reservedKey, itemIndex)] *)
Definition ReservedKeyFoundError (reservedKey : string) (itemIndex : nat) : Exception :=
  ReservedKeyFound
    {| message := "Invalid output format";
       description :=
         "An output item contains the reserved key <code>" ++ reservedKey ++
         "</code>. To get around this, please wrap each item in an object, under a key called <code>json</code>. <a href=" ++ dquote ++
         "https://docs.n8n.io/data/data-structure/#data-structure" ++ dquote ++
         " target=" ++ dquote ++ "_blank" ++ dquote ++ ">Example</a>";
       itemIndex := Some itemIndex |}.

Definition Result (A : Type) : Type := (Exception + A)%type.

Definition ok {A : Type} (a : A) : Result A := inr a.
Definition throw {A : Type} (e : Exception) : Result A := inl e.

Definition bind {A B : Type} (c : Result A) (k : A -> Result B) : Result B :=
  match c with
  | inl e => inl e
  | inr a => k a
  end.

Notation "x <- c ;; k" := (bind c (fun x => k))
  (at level 61, c at next level, right associativity).
Notation "c ;;; k" := (bind c (fun _ => k))
  (at level 61, right associativity).

(** [Object.keys(v)]: throws on [null] and [undefined]. *)
Definition Object_keys (v : Value) : Result (list string) :=
  match v with
  | VUndefined | VNull => throw TypeError
  | _ => ok (own_keys v)
  end.

(** [array.some(cb)], for a callback that may throw. *)
Fixpoint Array_some (cb : Value -> Result bool) (elems : list Value) : Result bool :=
  match elems with
  | [] => ok false
  | x :: rest =>
      b <- cb x ;;
      if b then ok true else Array_some cb rest
  end.

(** A loop over the elements with their indices, from [index] on, that
    stops at the first exception: the [for] loop of the all-items guard
    and [returnData.forEach((item, index) => ...)]. *)
Fixpoint forEach_from (f : Value -> nat -> Result unit) (index : nat)
    (elems : list Value) : Result unit :=
  match elems with
  | [] => ok tt
  | item :: rest => f item index ;;; forEach_from f (S index) rest
  end.

Definition forEach (f : Value -> nat -> Result unit) (elems : list Value) : Result unit :=
  forEach_from f 0 elems.

(* ================================================================== *)
(** ** The sandbox *)
(* ================================================================== *)

(** [interface SandboxTextKeys { object: { singular; plural } }] *)
Record NounForms : Type := mkNounForms {
  singular : string;
  plural : string
}.

Record SandboxTextKeys : Type := mkSandboxTextKeys {
  object : NounForms
}.

(** [keyof SandboxTextKeys] *)
Inductive TextKey : Type :=
| key_object.

Definition textKeys_at (t : SandboxTextKeys) (key : TextKey) : NounForms :=
  match key with
  | key_object => object t
  end.

(** The optional second argument of [getTextKey]; both fields are
    optional. *)
Record TextKeyOptions : Type := mkTextKeyOptions {
  opt_includeArticle : option bool;
  opt_plural : option bool
}.

(** What [helpers.normalizeItems] can do with its argument: return a
    sequence of items, or throw an error of its own. *)
Inductive NormalizerOutcome : Type :=
| Normalized (items : list Value)
| NormalizerThrows (msg : string).

(** The helpers bundle, reduced to the one helper the validators call.
    [normalizeItems] belongs to the host engine: it is a parameter of the
    sandbox. *)
Record Helpers : Type := mkHelpers {
  normalizeItems : Value -> NormalizerOutcome
}.

(** The fields of the abstract class [Sandbox]. *)
Record Sandbox : Type := mkSandbox {
  textKeys : SandboxTextKeys;
  helpers : Helpers
}.

(** [REQUIRED_N8N_ITEM_KEYS] *)
Definition REQUIRED_N8N_ITEM_KEYS : list string :=
  ["json"; "binary"; "pairedItem"; "error"; "index"].

(** [REQUIRED_N8N_ITEM_KEYS.has(key)] *)
Definition REQUIRED_N8N_ITEM_KEYS_has (key : string) : bool :=
  existsb (String.eqb key) REQUIRED_N8N_ITEM_KEYS.

(** Modelled from the spec: [isObject] is imported from [./utils], which
    is not among the sources.  The spec words it as: is a structured
    key-value object, not null, not an array, not a primitive. *)
Definition isObject (v : Value) : bool :=
  match v with
  | VObject _ => true
  | _ => false
  end.

(** The call of the external normalizer, with its exceptions lifted. *)
Definition call_normalizeItems (h : Helpers) (raw : Value) : Result (list Value) :=
  match normalizeItems h raw with
  | Normalized items => ok items
  | NormalizerThrows msg => throw (NormalizerFailure msg)
  end.

(** The parameter pattern [{ json, binary }]: destructuring [null] or
    [undefined] throws. *)
Definition destructure_json_binary (item : Value) : Result (Value * Value) :=
  match item with
  | VUndefined | VNull => throw TypeError
  | _ => ok (get item "json", get item "binary")
  end.

(** One step of the [for ... in] loop of [validateTopLevelKeys], on the
    pair of [foundReservedKey] and [unknownKeys]. *)
Definition scan_key (st : option string * list string) (key : string)
  : option string * list string :=
  let (foundReservedKey, unknownKeys) := st in
  if REQUIRED_N8N_ITEM_KEYS_has key then
    (match foundReservedKey with
     | Some k => Some k
     | None => Some key
     end, unknownKeys)
  else (foundReservedKey, (unknownKeys ++ [key])%list).

Section SandboxMethods.

Variable this : Sandbox.

(** [getTextKey(key, options)] *)
Definition getTextKey (key : TextKey) (options : option TextKeyOptions) : string :=
  let response :=
    if truthy_opt_bool (match options with
                        | Some o => opt_plural o
                        | None => None
                        end)
    then plural (textKeys_at (textKeys this) key)
    else singular (textKeys_at (textKeys this) key) in
  if negb (truthy_opt_bool (match options with
                            | Some o => opt_includeArticle o
                            | None => None
                            end))
  then response
  else if existsb (fun value => String.prefix value response)
            ["a"; "e"; "i"; "o"; "u"]
  then "an " ++ response
  else "a " ++ response.

Definition with_article : option TextKeyOptions :=
  Some {| opt_includeArticle := Some true; opt_plural := None |}.

Definition in_plural : option TextKeyOptions :=
  Some {| opt_includeArticle := None; opt_plural := Some true |}.

(** [validateItem({ json, binary }, itemIndex)] *)
Definition validateItem (item : Value) (itemIndex : nat) : Result unit :=
  jb <- destructure_json_binary item ;;
  let (json, binary) := jb in
  if is_undefined json || negb (isObject json) then
    throw (ValidationError
      {| message := "A 'json' property isn't " ++ getTextKey key_object with_article;
         description :=
           "In the returned data, every key named 'json' must point to " ++
           getTextKey key_object with_article ++ ".";
         itemIndex := Some itemIndex |})
  else if negb (is_undefined binary) && negb (isObject binary) then
    throw (ValidationError
      {| message := "A 'binary' property isn't " ++ getTextKey key_object with_article;
         description :=
           "In the returned data, every key named 'binary’ must point to " ++
           getTextKey key_object with_article ++ ".";
         itemIndex := Some itemIndex |})
  else ok tt.

(** [validateTopLevelKeys(item, itemIndex)].  The loop visits the own
    enumerable keys; over [null] and [undefined] it visits nothing. *)
Definition validateTopLevelKeys (item : Value) (itemIndex : nat) : Result unit :=
  let (foundReservedKey, unknownKeys) :=
    fold_left scan_key (own_keys item) (None, []) in
  if Nat.ltb 0 (List.length unknownKeys) then
    if truthy_opt_string foundReservedKey then
      throw (ReservedKeyFoundError
               (match foundReservedKey with Some k => k | None => EmptyString end)
               itemIndex)
    else
      throw (ValidationError
        {| message := "Unknown top-level item key: " ++ nth 0 unknownKeys "undefined";
           description :=
             "Access the properties of an item under `.json`, e.g. `item.json`";
           itemIndex := Some itemIndex |})
  else ok tt.

(** [validateRunCodeEachItem(executionResult, itemIndex)] *)
Definition validateRunCodeEachItem (executionResult : Value) (itemIndex : nat)
  : Result Value :=
  if negb (String.eqb (typeof executionResult) "object") then
    throw (ValidationError
      {| message := "Code doesn't return " ++ getTextKey key_object with_article;
         description :=
           "Please return " ++ getTextKey key_object with_article ++
           " representing the output item. ('" ++ ToString executionResult ++
           "' was returned instead.)";
         itemIndex := Some itemIndex |})
  else
    match executionResult with
    | VArray elems =>
        let firstSentence : string :=
          if Nat.ltb 0 (List.length elems)
          then ("An array of " ++ typeof (nth 0 elems VUndefined) ++ "s was returned.")%string
          else "An empty array was returned." in
        throw (ValidationError
          {| message := "Code doesn't return a single " ++ getTextKey key_object None;
             description :=
               firstSentence ++
               " If you need to output multiple items, please use the 'Run Once for All Items' mode instead.";
             itemIndex := Some itemIndex |})
    | _ =>
        normalized <- call_normalizeItems (helpers this) (VArray [executionResult]) ;;
        let returnData := nth 0 normalized VUndefined in
        validateItem returnData itemIndex ;;;
        validateTopLevelKeys returnData itemIndex ;;;
        ok returnData
    end.

(** The callback of [executionResult.some(...)]: whether
    [Object.keys(item).find(key => REQUIRED_N8N_ITEM_KEYS.has(key))] is
    truthy. *)
Definition finds_n8n_key (item : Value) : Result bool :=
  keys <- Object_keys item ;;
  ok (truthy_opt_string (find REQUIRED_N8N_ITEM_KEYS_has keys)).

(** The block guarded by [Array.isArray(executionResult)]. *)
Definition guard_array (elems : list Value) : Result unit :=
  mustHaveTopLevelN8nKey <- Array_some finds_n8n_key elems ;;
  if mustHaveTopLevelN8nKey
  then forEach_from validateTopLevelKeys 0 elems
  else ok tt.

(** The last three lines of [validateRunCodeAllItems]: normalize, run
    the item validator over every item, return the items. *)
Definition normalize_and_validate (executionResult : Value) : Result (list Value) :=
  returnData <- call_normalizeItems (helpers this) executionResult ;;
  forEach validateItem returnData ;;;
  ok returnData.

(** [validateRunCodeAllItems(executionResult)] *)
Definition validateRunCodeAllItems (executionResult : Value) : Result (list Value) :=
  if negb (String.eqb (typeof executionResult) "object") then
    throw (ValidationError
      {| message := "Code doesn't return items properly";
         description :=
           "Please return an array of " ++ getTextKey key_object in_plural ++
           ", one for each item you would like to output.";
         itemIndex := None |})
  else
    (match executionResult with
     | VArray elems => guard_array elems
     | _ => ok tt
     end) ;;;
    normalize_and_validate executionResult.

End SandboxMethods.

(* ================================================================== *)
(** ** Vocabulary of the specification *)
(* ================================================================== *)

(** An element "has at least one own top-level key in the reserved key
    set". *)
Definition has_n8n_key (item : Value) : bool :=
  existsb REQUIRED_N8N_ITEM_KEYS_has (own_keys item).

(** The reserved and the unknown own keys of an item, each in iteration
    order. *)
Definition reserved_keys (item : Value) : list string :=
  filter REQUIRED_N8N_ITEM_KEYS_has (own_keys item).

Definition unknown_keys (item : Value) : list string :=
  filter (fun key => negb (REQUIRED_N8N_ITEM_KEYS_has key)) (own_keys item).

(** [null] and [undefined]. *)
Definition is_nullish (v : Value) : bool :=
  match v with
  | VUndefined | VNull => true
  | _ => false
  end.

(** "The phrase starts with one of the lowercase characters a/e/i/o/u",
    read off the first character. *)
Definition starts_with_lowercase_vowel (phrase : string) : bool :=
  match phrase with
  | EmptyString => false
  | String c _ => existsb (Ascii.eqb c) ["a"; "e"; "i"; "o"; "u"]%char
  end.

(** "a/an <noun>": the singular noun of the sandbox with its article. *)
Definition a_an_noun (this : Sandbox) : string :=
  let noun := singular (object (textKeys this)) in
  if starts_with_lowercase_vowel noun then "an " ++ noun else "a " ++ noun.

(** The errors of the taxonomy, as the entry points build them. *)
Definition NonObjectResult (this : Sandbox) (returned : Value) (index : nat) : Exception :=
  ValidationError
    {| message := "Code doesn't return " ++ a_an_noun this;
       description :=
         "Please return " ++ a_an_noun this ++
         " representing the output item. ('" ++ ToString returned ++
         "' was returned instead.)";
       itemIndex := Some index |}.

Definition ItemsNotReturnedProperly (this : Sandbox) : Exception :=
  ValidationError
    {| message := "Code doesn't return items properly";
       description :=
         "Please return an array of " ++ plural (object (textKeys this)) ++
         ", one for each item you would like to output.";
       itemIndex := None |}.

Definition UnexpectedArray (this : Sandbox) (firstSentence : string) (index : nat)
  : Exception :=
  ValidationError
    {| message := "Code doesn't return a single " ++ singular (object (textKeys this));
       description :=
         firstSentence ++
         " If you need to output multiple items, please use the 'Run Once for All Items' mode instead.";
       itemIndex := Some index |}.

Definition MalformedJsonField (this : Sandbox) (index : nat) : Exception :=
  ValidationError
    {| message := "A 'json' property isn't " ++ a_an_noun this;
       description :=
         "In the returned data, every key named 'json' must point to " ++
         a_an_noun this ++ ".";
       itemIndex := Some index |}.

Definition MalformedBinaryField (this : Sandbox) (index : nat) : Exception :=
  ValidationError
    {| message := "A 'binary' property isn't " ++ a_an_noun this;
       description :=
         "In the returned data, every key named 'binary’ must point to " ++
         a_an_noun this ++ ".";
       itemIndex := Some index |}.

Definition UnknownTopLevelKey (key : string) (index : nat) : Exception :=
  ValidationError
    {| message := "Unknown top-level item key: " ++ key;
       description :=
         "Access the properties of an item under `.json`, e.g. `item.json`";
       itemIndex := Some index |}.

(** The two errors only the top-level key guard raises. *)
Definition is_guard_error (e : Exception) : bool :=
  match e with
  | ReservedKeyFound _ => true
  | ValidationError f => String.prefix "Unknown top-level item key: " (message f)
  | _ => false
  end.

(** The errors whose message starts with "Code doesn't return": those of
    the type and array gates of the entry points. *)
Definition is_classifier_error (e : Exception) : bool :=
  match e with
  | ValidationError f => String.prefix "Code doesn't return " (message f)
  | _ => false
  end.

(* ================================================================== *)
(** ** A normalizer and two sandboxes to run the validators on *)
(* ================================================================== *)

(** Modelled from the spec: [normalizeItems] is a helper of the host
    engine and is not among the sources.  The spec says it coerces a raw
    result into a sequence of items, wrapping a bare payload under [json]
    when no reserved key is present, that it takes an absent result to
    zero items, and that it takes a single item to a sequence. *)
Definition wrap_bare_payload (raw : Value) : Value :=
  if isObject raw && has_n8n_key raw then raw else VObject [("json", raw)].

Definition normalizeItems_spec (raw : Value) : NormalizerOutcome :=
  match raw with
  | VUndefined => Normalized []
  | VArray elems => Normalized (map wrap_bare_payload elems)
  | single => Normalized [wrap_bare_payload single]
  end.

(** A sandbox whose noun starts with a vowel, and one whose noun does
    not. *)
Definition object_sandbox : Sandbox :=
  {| textKeys := {| object := {| singular := "object"; plural := "objects" |} |};
     helpers := {| normalizeItems := normalizeItems_spec |} |}.

Definition dictionary_sandbox : Sandbox :=
  {| textKeys := {| object := {| singular := "dictionary"; plural := "dictionaries" |} |};
     helpers := {| normalizeItems := normalizeItems_spec |} |}.

(** A sandbox whose normalizer always throws: what precedes the
    normalizer does not depend on it. *)
Definition failing_sandbox : Sandbox :=
  {| textKeys := {| object := {| singular := "object"; plural := "objects" |} |};
     helpers := {| normalizeItems := fun _ => NormalizerThrows "Inconsistent item format" |} |}.

(* ================================================================== *)
(** ** Reading errors *)
(* ================================================================== *)

(** An instance of [ValidationError], the subclass included. *)
Definition is_validation_error (e : Exception) : bool :=
  match e with
  | ValidationError _ | ReservedKeyFound _ => true
  | _ => false
  end.

(** The [itemIndex] an exception carries, if it carries one. *)
Definition carried_index (e : Exception) : option nat :=
  match e with
  | ValidationError f | ReservedKeyFound f => itemIndex f
  | _ => None
  end.

(** An item as the item validator wants it: an object whose [json] is a
    structured object and whose [binary] is absent or a structured
    object. *)
Definition well_formed_item (item : Value) : bool :=
  isObject item && isObject (get item "json") &&
  (is_undefined (get item "binary") || isObject (get item "binary")).

(* ================================================================== *)
(** ** The sandbox context *)
(* ================================================================== *)

Module Context.

(** What a call into the host does: it returns, or it throws an error of
    the host's own. *)
Inductive HostCall (A : Type) : Type :=
| Returns (a : A)
| Throws (msg : string).

Arguments Returns {A} a.
Arguments Throws {A} msg.

(** What the context of user code holds: data, functions of the host
    (named, and carrying the receiver they were bound to, if any) and
    objects of these.  The caller ([this] of [getSandboxContext]) offers
    its helpers bundle, two accessors and, if it has one, the factory of
    the data-proxy bindings of an item index, a call that returns the
    bindings or throws; a bound function holds on to the caller it was
    bound to. *)
Inductive ContextValue : Type :=
| CData (v : Value)
| CFunction (name : string)
| CBoundFunction (name : string) (boundThis : ExecuteFunctions)
| CObject (props : list (string * ContextValue))
with ExecuteFunctions : Type :=
| mkExecuteFunctions
    (helpers : list (string * ContextValue))
    (getNodeParameter : ContextValue)
    (getWorkflowStaticData : ContextValue)
    (getWorkflowDataProxy : option (nat -> HostCall (list (string * ContextValue)))).

Definition helpers (this : ExecuteFunctions) : list (string * ContextValue) :=
  match this with
  | mkExecuteFunctions h _ _ _ => h
  end.

Definition getNodeParameter (this : ExecuteFunctions) : ContextValue :=
  match this with
  | mkExecuteFunctions _ g _ _ => g
  end.

Definition getWorkflowStaticData (this : ExecuteFunctions) : ContextValue :=
  match this with
  | mkExecuteFunctions _ _ g _ => g
  end.

Definition getWorkflowDataProxy (this : ExecuteFunctions)
  : option (nat -> HostCall (list (string * ContextValue))) :=
  match this with
  | mkExecuteFunctions _ _ _ factory => factory
  end.

(** What building the context can throw: an exception of the engine (the
    [TypeError] of calling what is not a function) or whatever the data
    proxy factory throws. *)
Inductive Thrown : Type :=
| EngineException (e : Exception)
| HostException (msg : string).

Definition Outcome (A : Type) : Type := (Thrown + A)%type.

Definition engine {A : Type} (c : Result A) : Outcome A :=
  match c with
  | inl e => inl (EngineException e)
  | inr a => inr a
  end.

Definition and_then {A B : Type} (c : Outcome A) (k : A -> Outcome B) : Outcome B :=
  match c with
  | inl t => inl t
  | inr a => k a
  end.

(** First binding of a name in a property list. *)
Fixpoint lookup_prop (name : string) (props : list (string * ContextValue))
  : option ContextValue :=
  match props with
  | [] => None
  | (k, v) :: rest => if String.eqb k name then Some v else lookup_prop name rest
  end.

(** [obj.name]: a missing property reads as [undefined]. *)
Definition get_prop (props : list (string * ContextValue)) (name : string)
  : ContextValue :=
  match lookup_prop name props with
  | Some v => v
  | None => CData VUndefined
  end.

(** Defining the property [name: v] in an object under construction: an
    existing property keeps its place and takes the new value, a new one
    goes last. *)
Fixpoint set_prop (name : string) (v : ContextValue)
    (props : list (string * ContextValue)) : list (string * ContextValue) :=
  match props with
  | [] => [(name, v)]
  | (k, old) :: rest =>
      if String.eqb k name then (k, v) :: rest
      else (k, old) :: set_prop name v rest
  end.

(** [{ ...target, ...source }]: the properties of [source] are defined
    one after the other. *)
Definition spread (source target : list (string * ContextValue))
  : list (string * ContextValue) :=
  fold_left (fun acc kv => set_prop (fst kv) (snd kv) acc) source target.

(** [f.bind(thisArg)].  Only a function has [bind]; a function that is
    already bound keeps its first receiver. *)
Definition Function_bind (f : ContextValue) (thisArg : ExecuteFunctions)
  : Result ContextValue :=
  match f with
  | CFunction name => ok (CBoundFunction name thisArg)
  | CBoundFunction name boundThis => ok (CBoundFunction name boundThis)
  | _ => throw TypeError
  end.



(** [this.getWorkflowDataProxy(index)]: calling a missing factory throws
    a [TypeError]; the factory returns the bindings or throws. *)
Definition call_getWorkflowDataProxy (this : ExecuteFunctions) (index : nat)
  : Outcome (list (string * ContextValue)) :=
  match getWorkflowDataProxy this with
  | None => inl (EngineException TypeError)
  | Some factory =>
      match factory index with
      | Returns proxy => inr proxy
      | Throws msg => inl (HostException msg)
      end
  end.

(** [getSandboxContext.call(this, index)]: the helpers object is built
    first, then the properties of the returned object in the order they
    are written, the data proxy being called last. *)
Definition getSandboxContext (this : ExecuteFunctions) (index : nat)
  : Outcome (list (string * ContextValue)) :=
  and_then
    (engine (Function_bind
               (get_prop (helpers this) "httpRequestWithAuthentication") this))
    (fun httpRequestWithAuthentication =>
  and_then
    (engine (Function_bind
               (get_prop (helpers this) "requestWithAuthenticationPaginated") this))
    (fun requestWithAuthenticationPaginated =>
  let helpers :=
    set_prop "requestWithAuthenticationPaginated" requestWithAuthenticationPaginated
      (set_prop "httpRequestWithAuthentication" httpRequestWithAuthentication
         (spread (helpers this) [])) in
  and_then (engine (Function_bind (getNodeParameter this) this))
    (fun getNodeParameter' =>
  and_then (engine (Function_bind (getWorkflowStaticData this) this))
    (fun getWorkflowStaticData' =>
  and_then (call_getWorkflowDataProxy this index)
    (fun proxy =>
  inr (spread proxy
         (set_prop "helpers" (CObject helpers)
            (set_prop "$getWorkflowStaticData" getWorkflowStaticData'
               (set_prop "$getNodeParameter" getNodeParameter' []))))))))).

(** A caller to run [getSandboxContext] on: five helpers, two of them
    the ones to be bound, and a data proxy that defines [$json] and
    [$itemIndex], for item 7 also a binding named [helpers], and that
    throws for item 9. *)
Definition example_caller : ExecuteFunctions :=
  mkExecuteFunctions
    [("httpRequest", CFunction "httpRequest");
     ("httpRequestWithAuthentication", CFunction "httpRequestWithAuthentication");
     ("normalizeItems", CFunction "normalizeItems");
     ("requestWithAuthenticationPaginated",
      CFunction "requestWithAuthenticationPaginated");
     ("returnJsonArray", CFunction "returnJsonArray")]
    (CFunction "getNodeParameter")
    (CFunction "getWorkflowStaticData")
    (Some (fun index =>
       if Nat.eqb index 9 then Throws "No data found for item-index"
       else Returns
         (([("$json", CData (VObject [("n", VNumber (Z.of_nat index))]));
            ("$itemIndex", CData (VNumber (Z.of_nat index)))] ++
           (if Nat.eqb index 7 then [("helpers", CData VNull)] else []))%list))).

(** The context a call returned, or the empty one. *)
Definition context_of (c : Outcome (list (string * ContextValue)))
  : list (string * ContextValue) :=
  match c with
  | inr context => context
  | inl _ => []
  end.

End Context.

(* ================================================================== *)
(** ** The error monad *)
(* ================================================================== *)

Lemma bind_ok {A B : Type} (a : A) (k : A -> Result B) : bind (ok a) k = k a.
Proof. reflexivity. Qed.

Lemma bind_throw {A B : Type} (e : Exception) (k : A -> Result B) :
  bind (throw e) k = throw e.
Proof. reflexivity. Qed.

Lemma throw_inj {A : Type} (e e' : Exception) : @throw A e = throw e' -> e = e'.
Proof. intros H. injection H as H. exact H. Qed.

Lemma bind_ok_inv {A B : Type} (c : Result A) (k : A -> Result B) (b : B) :
  bind c k = ok b -> exists a, c = ok a /\ k a = ok b.
Proof.
  destruct c as [e | a]; simpl; intros H.
  - discriminate H.
  - exists a. split; [reflexivity | exact H].
Qed.

(* ================================================================== *)
(** ** The text provider *)
(* ================================================================== *)

Lemma prefix_single (a : ascii) (s : string) :
  String.prefix (String a EmptyString) s =
  match s with
  | EmptyString => false
  | String c _ => Ascii.eqb c a
  end.
Proof.
  destruct s as [| c rest]; simpl.
  - reflexivity.
  - destruct (ascii_dec a c) as [Heq | Hne].
    + subst c. rewrite Ascii.eqb_refl. destruct rest; reflexivity.
    + symmetry. apply Ascii.eqb_neq. congruence.
Qed.

Lemma some_vowel_prefix (response : string) :
  existsb (fun value => String.prefix value response) ["a"; "e"; "i"; "o"; "u"] =
  starts_with_lowercase_vowel response.
Proof.
  unfold existsb. rewrite !prefix_single.
  destruct response as [| c rest]; reflexivity.
Qed.

Lemma getTextKey_with_article (this : Sandbox) :
  getTextKey this key_object with_article = a_an_noun this.
Proof.
  unfold a_an_noun. rewrite <- some_vowel_prefix. reflexivity.
Qed.

Lemma getTextKey_plain (this : Sandbox) :
  getTextKey this key_object None = singular (object (textKeys this)).
Proof. reflexivity. Qed.

Lemma getTextKey_in_plural (this : Sandbox) :
  getTextKey this key_object in_plural = plural (object (textKeys this)).
Proof. reflexivity. Qed.

(** C9. Article selection of the text provider.  The phrase is the plural
    form when the [plural] option is truthy and the singular form
    otherwise.  When the [includeArticle] option is truthy the result is
    "an <phrase>" if the phrase starts with one of the lowercase
    characters a, e, i, o, u, and "a <phrase>" otherwise; when the option
    is absent or false the phrase is returned unchanged. *)
Theorem getTextKey_article_selection
    (this : Sandbox) (key : TextKey) (options : option TextKeyOptions) :
  let wants_plural :=
    match options with Some o => truthy_opt_bool (opt_plural o) | None => false end in
  let wants_article :=
    match options with Some o => truthy_opt_bool (opt_includeArticle o) | None => false end in
  let phrase :=
    if wants_plural
    then plural (textKeys_at (textKeys this) key)
    else singular (textKeys_at (textKeys this) key) in
  getTextKey this key options =
  if wants_article
  then if starts_with_lowercase_vowel phrase then "an " ++ phrase else "a " ++ phrase
  else phrase.
Proof.
  unfold getTextKey.
  destruct options as [[art plu] |]; simpl.
  - destruct (truthy_opt_bool art); [| reflexivity].
    rewrite <- some_vowel_prefix. reflexivity.
  - reflexivity.
Qed.

Example getTextKey_vowel_led :
  getTextKey object_sandbox key_object with_article = "an object".
Proof. reflexivity. Qed.

Example getTextKey_consonant_led :
  getTextKey dictionary_sandbox key_object with_article = "a dictionary".
Proof. reflexivity. Qed.

Example getTextKey_uppercase_vowel :
  getTextKey
    {| textKeys := {| object := {| singular := "Object"; plural := "Objects" |} |};
       helpers := helpers object_sandbox |}
    key_object with_article = "a Object".
Proof. reflexivity. Qed.

Example getTextKey_plural_no_article :
  getTextKey dictionary_sandbox key_object in_plural = "dictionaries".
Proof. reflexivity. Qed.

(* ================================================================== *)
(** ** The top-level key guard *)
(* ================================================================== *)

Lemma reserved_key_cases (key : string) :
  REQUIRED_N8N_ITEM_KEYS_has key = true ->
  key = "json" \/ key = "binary" \/ key = "pairedItem" \/ key = "error" \/ key = "index".
Proof.
  unfold REQUIRED_N8N_ITEM_KEYS_has, REQUIRED_N8N_ITEM_KEYS. simpl.
  rewrite !orb_true_iff, !String.eqb_eq. intuition (try discriminate).
Qed.

Lemma reserved_key_truthy (key : string) :
  REQUIRED_N8N_ITEM_KEYS_has key = true -> truthy_string key = true.
Proof.
  intros H. apply reserved_key_cases in H.
  destruct H as [H | [H | [H | [H | H]]]]; subst key; reflexivity.
Qed.

(** The loop of the guard computes the first reserved key and the list of
    the unknown keys. *)
Lemma scan_keys_fold (keys : list string) (found : option string) (unknown : list string) :
  fold_left scan_key keys (found, unknown) =
  (match found with
   | Some k => Some k
   | None => hd_error (filter REQUIRED_N8N_ITEM_KEYS_has keys)
   end,
   (unknown ++ filter (fun key => negb (REQUIRED_N8N_ITEM_KEYS_has key)) keys)%list).
Proof.
  revert found unknown.
  induction keys as [| key rest IH]; intros found unknown; simpl.
  - rewrite app_nil_r. destruct found; reflexivity.
  - destruct (REQUIRED_N8N_ITEM_KEYS_has key) eqn:Hkey; simpl; rewrite IH.
    + destruct found; reflexivity.
    + rewrite <- app_assoc. reflexivity.
Qed.

Lemma hd_error_reserved_truthy (keys : list string) :
  truthy_opt_string (hd_error (filter REQUIRED_N8N_ITEM_KEYS_has keys)) =
  match filter REQUIRED_N8N_ITEM_KEYS_has keys with
  | [] => false
  | _ :: _ => true
  end.
Proof.
  destruct (filter REQUIRED_N8N_ITEM_KEYS_has keys) as [| r rest] eqn:Hf.
  - reflexivity.
  - simpl. apply reserved_key_truthy.
    assert (Hin : In r (filter REQUIRED_N8N_ITEM_KEYS_has keys))
      by (rewrite Hf; left; reflexivity).
    apply filter_In in Hin. apply Hin.
Qed.

(** The guard in terms of what its loop has collected. *)
Lemma validateTopLevelKeys_scan (item : Value) (index : nat) :
  validateTopLevelKeys item index =
  if Nat.ltb 0 (List.length (unknown_keys item)) then
    if truthy_opt_string (hd_error (reserved_keys item)) then
      throw (ReservedKeyFoundError
               (match hd_error (reserved_keys item) with
                | Some k => k
                | None => EmptyString
                end) index)
    else throw (UnknownTopLevelKey (nth 0 (unknown_keys item) "undefined") index)
  else ok tt.
Proof.
  unfold validateTopLevelKeys, unknown_keys, reserved_keys.
  rewrite scan_keys_fold. reflexivity.
Qed.

(** C5. The top-level key guard, on the own enumerable keys of an item
    split into reserved and unknown keys, each in iteration order: with no
    unknown key it passes, whichever reserved keys are present; with an
    unknown key and a reserved key it raises [ReservedKeyFoundError] for
    the first reserved key and the item index; with an unknown key and no
    reserved key it raises the generic error whose message names the first
    unknown key. *)
Theorem validateTopLevelKeys_partition (item : Value) (index : nat) :
  validateTopLevelKeys item index =
  match unknown_keys item, reserved_keys item with
  | [], _ => ok tt
  | _ :: _, firstReserved :: _ => throw (ReservedKeyFoundError firstReserved index)
  | firstUnknown :: _, [] => throw (UnknownTopLevelKey firstUnknown index)
  end.
Proof.
  rewrite validateTopLevelKeys_scan.
  unfold reserved_keys at 1. rewrite hd_error_reserved_truthy.
  fold (reserved_keys item).
  destruct (unknown_keys item) as [| u us]; [reflexivity |].
  destruct (reserved_keys item) as [| r rs]; reflexivity.
Qed.

Example guard_only_reserved_keys :
  validateTopLevelKeys
    (VObject [("index", VNumber 0); ("json", VObject []); ("error", VNull)]) 4 = ok tt.
Proof. reflexivity. Qed.

Example guard_first_reserved_key :
  validateTopLevelKeys
    (VObject [("foo", VNumber 2); ("binary", VObject []); ("json", VObject [])]) 4 =
  throw (ReservedKeyFoundError "binary" 4).
Proof. reflexivity. Qed.

Example guard_first_unknown_key :
  validateTopLevelKeys
    (VObject [("notJson", VNumber 1); ("other", VNumber 2)]) 1 =
  throw (UnknownTopLevelKey "notJson" 1).
Proof. reflexivity. Qed.

(* ================================================================== *)
(** ** The item validator *)
(* ================================================================== *)

Lemma is_undefined_spec (v : Value) : is_undefined v = true <-> v = VUndefined.
Proof. destruct v; simpl; split; intros H; try reflexivity; discriminate H. Qed.

Lemma undefined_not_object (v : Value) : is_undefined v = true -> isObject v = false.
Proof. destruct v; simpl; intros H; try reflexivity; discriminate H. Qed.

Lemma json_error_is_not_binary_error (this : Sandbox) (i j : nat) :
  MalformedJsonField this i <> MalformedBinaryField this j.
Proof.
  unfold MalformedJsonField, MalformedBinaryField. intros H.
  injection H as Hmsg _ _. simpl in Hmsg. discriminate Hmsg.
Qed.

(** The outcome of the item validator on an item that can be
    destructured. *)
Lemma validateItem_outcome (this : Sandbox) (item : Value) (index : nat) :
  is_nullish item = false ->
  validateItem this item index =
  if negb (isObject (get item "json")) then throw (MalformedJsonField this index)
  else if negb (is_undefined (get item "binary")) && negb (isObject (get item "binary"))
       then throw (MalformedBinaryField this index)
       else ok tt.
Proof.
  intros Hitem. unfold validateItem, MalformedJsonField, MalformedBinaryField.
  rewrite getTextKey_with_article.
  assert (Hd : destructure_json_binary item = ok (get item "json", get item "binary"))
    by (destruct item; try reflexivity; discriminate Hitem).
  rewrite Hd, bind_ok.
  destruct (is_undefined (get item "json")) eqn:Hu.
  - rewrite (undefined_not_object _ Hu). reflexivity.
  - reflexivity.
Qed.

Lemma validateItem_nullish (this : Sandbox) (item : Value) (index : nat) :
  is_nullish item = true -> validateItem this item index = throw TypeError.
Proof. destruct item; simpl; intros H; try discriminate H; reflexivity. Qed.

Lemma validateItem_ok_not_nullish (this : Sandbox) (item : Value) (index : nat) :
  validateItem this item index = ok tt -> is_nullish item = false.
Proof.
  intros H. destruct (is_nullish item) eqn:Hn; [| reflexivity].
  rewrite (validateItem_nullish this item index Hn) in H. discriminate H.
Qed.

(** The item validator never raises one of the two errors of the guard. *)
Lemma validateItem_no_guard_error (this : Sandbox) (item : Value) (index : nat)
    (e : Exception) :
  validateItem this item index = throw e -> is_guard_error e = false.
Proof.
  destruct (is_nullish item) eqn:Hn.
  - rewrite (validateItem_nullish this item index Hn). intros H.
    injection H as <-. reflexivity.
  - rewrite (validateItem_outcome this item index Hn).
    destruct (negb (isObject (get item "json"))).
    + intros H. injection H as <-. reflexivity.
    + destruct (negb (is_undefined (get item "binary")) &&
                negb (isObject (get item "binary"))).
      * intros H. injection H as <-. reflexivity.
      * intros H. discriminate H.
Qed.

(** C6. The item validator on a normalized item (an object) and an index:
    it raises the error "A 'json' property isn't a/an <noun>" with that
    index exactly when the [json] field is undefined or is not a
    structured object; it raises the error "A 'binary' property isn't
    a/an <noun>" with that index exactly when [json] is a structured
    object and [binary] is defined and is not one; it passes exactly in
    the remaining case; and two items with the same [json] and [binary]
    fields have the same outcome. *)
Theorem validateItem_json_binary (this : Sandbox) (props : list (string * Value))
    (index : nat) :
  let item := VObject props in
  let json := get item "json" in
  let binary := get item "binary" in
  (validateItem this item index = throw (MalformedJsonField this index) <->
   json = VUndefined \/ isObject json = false) /\
  (validateItem this item index = throw (MalformedBinaryField this index) <->
   isObject json = true /\ binary <> VUndefined /\ isObject binary = false) /\
  (validateItem this item index = ok tt <->
   isObject json = true /\ (binary = VUndefined \/ isObject binary = true)) /\
  (forall props' : list (string * Value),
      get (VObject props') "json" = json ->
      get (VObject props') "binary" = binary ->
      validateItem this (VObject props') index = validateItem this item index).
Proof.
  intros item json binary.
  assert (Hout := validateItem_outcome this item index eq_refl).
  fold json binary in Hout.
  assert (Hjb : @throw unit (MalformedJsonField this index) <>
                throw (MalformedBinaryField this index)).
  { intros H. apply throw_inj in H.
    exact (json_error_is_not_binary_error this index index H). }
  assert (Hbj : @throw unit (MalformedBinaryField this index) <>
                throw (MalformedJsonField this index)).
  { intros H. symmetry in H. exact (Hjb H). }
  assert (Hundef : is_undefined binary = true <-> binary = VUndefined)
    by apply is_undefined_spec.
  split; [| split; [| split]].
  - rewrite Hout.
    destruct (isObject json) eqn:Hj; simpl.
    + split.
      * intros H. exfalso.
        destruct (negb (is_undefined binary) && negb (isObject binary));
          [exact (Hbj H) | discriminate H].
      * intros [Hu | Hn]; [| discriminate Hn].
        rewrite Hu in Hj. discriminate Hj.
    + split; [intros _; right; reflexivity | reflexivity].
  - rewrite Hout.
    destruct (isObject json) eqn:Hj; simpl.
    + destruct (is_undefined binary) eqn:Hu; simpl.
      * split; [intros H; discriminate H |].
        intros (_ & Hdef & _). exfalso. apply Hdef, Hundef. reflexivity.
      * destruct (isObject binary) eqn:Hb; simpl.
        -- split; [intros H; discriminate H | intros (_ & _ & H); discriminate H].
        -- split; [| reflexivity].
           intros _. repeat split.
           intros Heq. apply Hundef in Heq. discriminate Heq.
    + split; [intros H; exfalso; exact (Hjb H) | intros (H & _); discriminate H].
  - rewrite Hout.
    destruct (isObject json) eqn:Hj; simpl.
    + destruct (is_undefined binary) eqn:Hu; simpl.
      * split; [| reflexivity].
        intros _. split; [reflexivity | left; apply Hundef; reflexivity].
      * destruct (isObject binary) eqn:Hb; simpl.
        -- split; [| reflexivity].
           intros _. split; [reflexivity | right; reflexivity].
        -- split; [intros H; discriminate H |].
           intros (_ & [Heq | Heq]); [| discriminate Heq].
           apply Hundef in Heq. discriminate Heq.
    + split; [intros H; discriminate H | intros (H & _); discriminate H].
  - intros props' Hj Hb.
    rewrite (validateItem_outcome this (VObject props') index eq_refl).
    rewrite Hj, Hb. symmetry. exact Hout.
Qed.

Example validateItem_binary_array :
  validateItem object_sandbox
    (VObject [("json", VObject [("x", VNumber 1)]);
              ("binary", VArray [VNumber 1; VNumber 2])]) 3 =
  throw (MalformedBinaryField object_sandbox 3).
Proof. reflexivity. Qed.

Example validateItem_json_null :
  validateItem dictionary_sandbox
    (VObject [("json", VNull); ("binary", VArray [])]) 7 =
  throw (MalformedJsonField dictionary_sandbox 7).
Proof. reflexivity. Qed.

Example validateItem_ignores_other_fields :
  validateItem object_sandbox
    (VObject [("pairedItem", VString "x"); ("json", VObject []); ("foo", VNull)]) 0 =
  ok tt.
Proof. reflexivity. Qed.

(* ================================================================== *)
(** ** Loops over the items *)
(* ================================================================== *)

Section Loops.

Variable f : Value -> nat -> Result unit.

Lemma forEach_from_cons (index : nat) (item : Value) (rest : list Value) :
  f item index = ok tt ->
  forEach_from f index (item :: rest) = forEach_from f (S index) rest.
Proof. intros H. simpl. rewrite H. reflexivity. Qed.

(** The loop passes exactly when every call passes. *)
Lemma forEach_from_ok (elems : list Value) (index : nat) :
  forEach_from f index elems = ok tt <->
  (forall j, j < List.length elems -> f (nth j elems VUndefined) (index + j) = ok tt).
Proof.
  revert index. induction elems as [| item rest IH]; intros index; simpl.
  - split; [intros _ j Hj; lia | reflexivity].
  - split.
    + intros H. destruct (f item index) as [e | []] eqn:Hf; [discriminate H |].
      simpl in H. intros [| j] Hj.
      * rewrite Nat.add_0_r. exact Hf.
      * rewrite Nat.add_succ_r. apply (proj1 (IH (S index)) H j). lia.
    + intros H.
      assert (Hf : f item index = ok tt)
        by (specialize (H 0 ltac:(lia)); rewrite Nat.add_0_r in H; exact H).
      rewrite Hf. simpl. apply IH. intros j Hj.
      specialize (H (S j) ltac:(lia)). rewrite Nat.add_succ_r in H. exact H.
Qed.

(** The loop stops at the first call that throws, in index order. *)
Lemma forEach_from_first_throw (elems : list Value) (index k : nat) (e : Exception) :
  k < List.length elems ->
  (forall j, j < k -> f (nth j elems VUndefined) (index + j) = ok tt) ->
  f (nth k elems VUndefined) (index + k) = throw e ->
  forEach_from f index elems = throw e.
Proof.
  revert index k. induction elems as [| item rest IH]; intros index k Hk Hbefore Hat.
  - simpl in Hk. lia.
  - destruct k as [| k].
    + simpl in Hat. rewrite Nat.add_0_r in Hat. simpl. rewrite Hat. reflexivity.
    + assert (Hf : f item index = ok tt)
        by (specialize (Hbefore 0 ltac:(lia)); rewrite Nat.add_0_r in Hbefore;
            exact Hbefore).
      rewrite (forEach_from_cons _ _ _ Hf).
      apply (IH (S index) k).
      * simpl in Hk. lia.
      * intros j Hj. specialize (Hbefore (S j) ltac:(lia)).
        rewrite Nat.add_succ_r in Hbefore. exact Hbefore.
      * rewrite Nat.add_succ_r in Hat. exact Hat.
Qed.

(** Whatever the loop throws was thrown by one of the calls. *)
Lemma forEach_from_throw_inv (elems : list Value) (index : nat) (e : Exception) :
  forEach_from f index elems = throw e ->
  exists item j, In item elems /\ f item j = throw e.
Proof.
  revert index. induction elems as [| item rest IH]; intros index H; simpl in H.
  - discriminate H.
  - destruct (f item index) as [e' | []] eqn:Hf; simpl in H.
    + exists item, index. split; [left; reflexivity |].
      rewrite Hf. exact H.
    + destruct (IH (S index) H) as (x & j & Hin & Hx).
      exists x, j. split; [right; exact Hin | exact Hx].
Qed.

End Loops.

Lemma find_reserved_truthy (keys : list string) :
  truthy_opt_string (find REQUIRED_N8N_ITEM_KEYS_has keys) =
  existsb REQUIRED_N8N_ITEM_KEYS_has keys.
Proof.
  induction keys as [| key rest IH]; simpl.
  - reflexivity.
  - destruct (REQUIRED_N8N_ITEM_KEYS_has key) eqn:Hkey; simpl.
    + apply reserved_key_truthy. exact Hkey.
    + exact IH.
Qed.

Lemma finds_n8n_key_defined (item : Value) :
  is_nullish item = false -> finds_n8n_key item = ok (has_n8n_key item).
Proof.
  intros Hitem. unfold finds_n8n_key, has_n8n_key.
  assert (Hk : Object_keys item = ok (own_keys item))
    by (destruct item; try reflexivity; discriminate Hitem).
  rewrite Hk, bind_ok, find_reserved_truthy. reflexivity.
Qed.

Lemma Array_some_finds_n8n_key (elems : list Value) :
  Forall (fun item => is_nullish item = false) elems ->
  Array_some finds_n8n_key elems = ok (existsb has_n8n_key elems).
Proof.
  induction 1 as [| item rest Hitem _ IH]; simpl.
  - reflexivity.
  - rewrite (finds_n8n_key_defined item Hitem), bind_ok.
    destruct (has_n8n_key item); [reflexivity | exact IH].
Qed.

Lemma validateRunCodeAllItems_array (this : Sandbox) (elems : list Value) :
  validateRunCodeAllItems this (VArray elems) =
  (guard_array elems ;;; normalize_and_validate this (VArray elems)).
Proof. reflexivity. Qed.

Lemma guard_array_outcome (elems : list Value) :
  Forall (fun item => is_nullish item = false) elems ->
  guard_array elems =
  if existsb has_n8n_key elems
  then forEach_from validateTopLevelKeys 0 elems
  else ok tt.
Proof.
  intros Hitems. unfold guard_array.
  rewrite (Array_some_finds_n8n_key elems Hitems), bind_ok. reflexivity.
Qed.

(* ================================================================== *)
(** ** All-items mode *)
(* ================================================================== *)

Example validateRunCodeAllItems_guard_skipped :
  validateTopLevelKeys (VObject [("a", VNumber 1)]) 0 = throw (UnknownTopLevelKey "a" 0) /\
  validateRunCodeAllItems object_sandbox
    (VArray [VObject [("a", VNumber 1)]; VObject [("b", VNumber 2)]]) =
  ok [VObject [("json", VObject [("a", VNumber 1)])];
      VObject [("json", VObject [("b", VNumber 2)])]].
Proof. split; reflexivity. Qed.

Lemma forEach_validateItem_no_guard_error (this : Sandbox) (items : list Value)
    (index : nat) (e : Exception) :
  forEach_from (validateItem this) index items = throw e -> is_guard_error e = false.
Proof.
  intros H. apply forEach_from_throw_inv in H.
  destruct H as (item & j & _ & Hitem).
  exact (validateItem_no_guard_error this item j e Hitem).
Qed.

Lemma normalize_and_validate_outcome (this : Sandbox) (raw : Value) :
  normalize_and_validate this raw =
  match normalizeItems (helpers this) raw with
  | NormalizerThrows msg => throw (NormalizerFailure msg)
  | Normalized items => forEach (validateItem this) items ;;; ok items
  end.
Proof.
  unfold normalize_and_validate, call_normalizeItems.
  destruct (normalizeItems (helpers this) raw); reflexivity.
Qed.

Lemma normalize_and_validate_no_guard_error (this : Sandbox) (raw : Value)
    (e : Exception) :
  normalize_and_validate this raw = throw e -> is_guard_error e = false.
Proof.
  rewrite normalize_and_validate_outcome.
  destruct (normalizeItems (helpers this) raw) as [items | msg].
  - unfold forEach.
    destruct (forEach_from (validateItem this) 0 items) as [e' | []] eqn:Hloop; simpl.
    + intros H. apply throw_inj in H. subst e'.
      exact (forEach_validateItem_no_guard_error this items 0 e Hloop).
    + intros H. discriminate H.
  - intros H. apply throw_inj in H. subst e. reflexivity.
Qed.

(** C10. In all-items mode a single, non-array object result is not
    guarded: it goes straight to the normalizer and only the item
    validator runs on the normalized items, so the call never raises
    [ReservedKeyFoundError] nor the unknown-top-level-key error, even for
    an object that mixes a reserved key with unknown keys. *)
Theorem validateRunCodeAllItems_single_object (this : Sandbox)
    (props : list (string * Value)) :
  validateRunCodeAllItems this (VObject props) =
  match normalizeItems (helpers this) (VObject props) with
  | NormalizerThrows msg => throw (NormalizerFailure msg)
  | Normalized items => forEach (validateItem this) items ;;; ok items
  end /\
  (forall e : Exception,
      validateRunCodeAllItems this (VObject props) = throw e ->
      is_guard_error e = false).
Proof.
  assert (Hrun : validateRunCodeAllItems this (VObject props) =
                 normalize_and_validate this (VObject props)) by reflexivity.
  rewrite Hrun. split.
  - apply normalize_and_validate_outcome.
  - intros e. apply normalize_and_validate_no_guard_error.
Qed.

Example validateRunCodeAllItems_single_object_mixed :
  validateTopLevelKeys (VObject [("json", VObject []); ("foo", VNumber 1)]) 0 =
  throw (ReservedKeyFoundError "json" 0) /\
  validateRunCodeAllItems object_sandbox
    (VObject [("json", VObject []); ("foo", VNumber 1)]) =
  ok [VObject [("json", VObject []); ("foo", VNumber 1)]].
Proof. split; reflexivity. Qed.

(** C3, as the code has it. An absent result is refused by the type
    gate of all-items mode: [validateRunCodeAllItems(undefined)] raises
    the error "Code doesn't return items properly", without an item
    index, whatever the normalizer would make of [undefined]. *)
Theorem validateRunCodeAllItems_undefined (this : Sandbox) :
  validateRunCodeAllItems this VUndefined = throw (ItemsNotReturnedProperly this).
Proof. reflexivity. Qed.

(** C3, refuted as stated: with a normalizer that takes [undefined] to
    zero items, [validateRunCodeAllItems(undefined)] still raises. *)
Lemma validateRunCodeAllItems_undefined_raises :
  normalizeItems (helpers object_sandbox) VUndefined = Normalized [] /\
  validateRunCodeAllItems object_sandbox VUndefined =
  throw (ValidationError
    {| message := "Code doesn't return items properly";
       description :=
         "Please return an array of objects, one for each item you would like to output.";
       itemIndex := None |}).
Proof. split; reflexivity. Qed.

(* ================================================================== *)
(** ** Single-item mode *)
(* ================================================================== *)

(** C7. In single-item mode an array result raises the unexpected-array
    error with the item index; its description starts with "An empty array
    was returned." for the empty array and with "An array of <type>s was
    returned.", for the type tag of the first element, otherwise. *)
Theorem validateRunCodeEachItem_array (this : Sandbox) (elems : list Value)
    (index : nat) :
  validateRunCodeEachItem this (VArray elems) index =
  throw (UnexpectedArray this
           (match elems with
            | [] => "An empty array was returned."
            | first :: _ => "An array of " ++ typeof first ++ "s was returned."
            end)
           index).
Proof. destruct elems as [| first rest]; reflexivity. Qed.

Example validateRunCodeEachItem_empty_array :
  validateRunCodeEachItem object_sandbox (VArray []) 2 =
  throw (ValidationError
    {| message := "Code doesn't return a single object";
       description :=
         "An empty array was returned. If you need to output multiple items, please use the 'Run Once for All Items' mode instead.";
       itemIndex := Some 2 |}).
Proof. reflexivity. Qed.

Example validateRunCodeEachItem_array_of_objects :
  validateRunCodeEachItem object_sandbox
    (VArray [VObject [("json", VObject [])]; VNumber 3]) 5 =
  throw (ValidationError
    {| message := "Code doesn't return a single object";
       description :=
         "An array of objects was returned. If you need to output multiple items, please use the 'Run Once for All Items' mode instead.";
       itemIndex := Some 5 |}).
Proof. reflexivity. Qed.

Lemma typeof_not_object (v : Value) :
  typeof v <> "object" ->
  v = VUndefined \/ (exists b, v = VBoolean b) \/ (exists n, v = VNumber n) \/
  (exists s, v = VString s).
Proof.
  destruct v; simpl; intros H; try (exfalso; apply H; reflexivity); eauto.
Qed.

(** C4, as the code has it. The gate of single-item mode is
    [typeof v !== 'object']: for every value whose type tag is not
    'object' (numbers, strings, booleans and [undefined], but not [null])
    [validateRunCodeEachItem(v, i)] raises the error "Code doesn't return
    a/an <noun>" with item index [i]. *)
Theorem validateRunCodeEachItem_non_object (this : Sandbox) (v : Value) (index : nat) :
  typeof v <> "object" ->
  validateRunCodeEachItem this v index = throw (NonObjectResult this v index).
Proof.
  intros Hgate. unfold validateRunCodeEachItem, NonObjectResult.
  rewrite getTextKey_with_article.
  destruct (typeof_not_object v Hgate) as [-> | [[b ->] | [[n ->] | [s ->]]]];
    reflexivity.
Qed.

Lemma validateRunCodeEachItem_non_object_number :
  validateRunCodeEachItem dictionary_sandbox (VNumber 5) 2 =
  throw (ValidationError
    {| message := "Code doesn't return a dictionary";
       description :=
         "Please return a dictionary representing the output item. ('5' was returned instead.)";
       itemIndex := Some 2 |}).
Proof.
  apply (validateRunCodeEachItem_non_object dictionary_sandbox (VNumber 5) 2).
  simpl. discriminate.
Defined.

(** [null] passes the gate: the call goes on to the normalizer. *)
Lemma validateRunCodeEachItem_null (this : Sandbox) (index : nat) :
  validateRunCodeEachItem this VNull index =
  (normalized <- call_normalizeItems (helpers this) (VArray [VNull]) ;;
   validateItem this (nth 0 normalized VUndefined) index ;;;
   validateTopLevelKeys (nth 0 normalized VUndefined) index ;;;
   ok (nth 0 normalized VUndefined)).
Proof. reflexivity. Qed.

(** C4, refuted as stated: [null] is not an object and not an array, yet
    it passes the gate; the error raised for it, if any, is decided after
    the normalizer. *)
Lemma validateRunCodeEachItem_null_passes_gate :
  typeof VNull = "object" /\
  Array_isArray VNull = false /\
  validateRunCodeEachItem failing_sandbox VNull 0 =
  throw (NormalizerFailure "Inconsistent item format") /\
  validateRunCodeEachItem object_sandbox VNull 0 =
  throw (MalformedJsonField object_sandbox 0).
Proof. repeat split. Qed.

(* ================================================================== *)
(** ** Order of the stages *)
(* ================================================================== *)

Lemma validateRunCodeEachItem_single (this : Sandbox) (r : Value) (index : nat) :
  typeof r = "object" ->
  Array_isArray r = false ->
  validateRunCodeEachItem this r index =
  (normalized <- call_normalizeItems (helpers this) (VArray [r]) ;;
   validateItem this (nth 0 normalized VUndefined) index ;;;
   validateTopLevelKeys (nth 0 normalized VUndefined) index ;;;
   ok (nth 0 normalized VUndefined)).
Proof.
  intros Htype Harray. unfold validateRunCodeEachItem. rewrite Htype.
  destruct r; try reflexivity. discriminate Harray.
Qed.

(** C2, refuted as stated: in all-items mode an array element that
    violates both the item validator and the guard gets the guard's error,
    which is raised before the normalizer is called. *)
Lemma all_items_guard_error_first :
  normalizeItems (helpers object_sandbox)
    (VArray [VObject [("json", VNumber 1); ("foo", VNumber 2)]]) =
  Normalized [VObject [("json", VNumber 1); ("foo", VNumber 2)]] /\
  validateItem object_sandbox (VObject [("json", VNumber 1); ("foo", VNumber 2)]) 0 =
  throw (MalformedJsonField object_sandbox 0) /\
  validateTopLevelKeys (VObject [("json", VNumber 1); ("foo", VNumber 2)]) 0 =
  throw (ReservedKeyFoundError "json" 0) /\
  validateRunCodeAllItems object_sandbox
    (VArray [VObject [("json", VNumber 1); ("foo", VNumber 2)]]) =
  throw (ReservedKeyFoundError "json" 0).
Proof. repeat split. Qed.

(* ================================================================== *)
(** ** Running all-items validation on its own output *)
(* ================================================================== *)

Lemma validateRunCodeAllItems_ok_inv (this : Sandbox) (executionResult : Value)
    (returnData : list Value) :
  validateRunCodeAllItems this executionResult = ok returnData ->
  normalizeItems (helpers this) executionResult = Normalized returnData /\
  forEach (validateItem this) returnData = ok tt.
Proof.
  unfold validateRunCodeAllItems.
  destruct (negb (typeof executionResult =? "object")); [intros H; discriminate H |].
  intros H. apply bind_ok_inv in H. destruct H as (_ & _ & H).
  rewrite normalize_and_validate_outcome in H.
  destruct (normalizeItems (helpers this) executionResult) as [items | msg];
    [| discriminate H].
  apply bind_ok_inv in H. destruct H as ([] & Hloop & Hret).
  injection Hret as ->. split; [reflexivity | exact Hloop].
Qed.

Lemma no_unknown_keys_guard_ok (item : Value) (index : nat) :
  unknown_keys item = [] -> validateTopLevelKeys item index = ok tt.
Proof.
  intros H. rewrite validateTopLevelKeys_scan, H. reflexivity.
Qed.

(** C8, as the code has it. When [validateRunCodeAllItems] succeeds, and
    the normalizer returns the already-normalized output unchanged, and no
    returned item has an unknown top-level key, running it again on the
    returned sequence succeeds and returns the same sequence. *)
Theorem validateRunCodeAllItems_idempotent (this : Sandbox) (executionResult : Value)
    (returnData : list Value) :
  validateRunCodeAllItems this executionResult = ok returnData ->
  normalizeItems (helpers this) (VArray returnData) = Normalized returnData ->
  Forall (fun item => unknown_keys item = []) returnData ->
  validateRunCodeAllItems this (VArray returnData) = ok returnData.
Proof.
  intros Hfirst Hnorm Hclean.
  destruct (validateRunCodeAllItems_ok_inv this executionResult returnData Hfirst)
    as [_ Hvalid].
  assert (Hitems : Forall (fun item => is_nullish item = false) returnData).
  { apply Forall_nth. intros j d Hj.
    rewrite (nth_indep returnData d VUndefined Hj).
    apply (validateItem_ok_not_nullish this _ (0 + j)).
    exact (proj1 (forEach_from_ok (validateItem this) returnData 0) Hvalid j Hj). }
  assert (Hguard : guard_array returnData = ok tt).
  { rewrite (guard_array_outcome returnData Hitems).
    destruct (existsb has_n8n_key returnData); [| reflexivity].
    apply forEach_from_ok. intros j Hj.
    apply no_unknown_keys_guard_ok.
    exact (proj1 (Forall_nth _ returnData) Hclean j VUndefined Hj). }
  rewrite validateRunCodeAllItems_array, Hguard, bind_ok.
  rewrite normalize_and_validate_outcome, Hnorm, Hvalid. reflexivity.
Qed.

Lemma validateRunCodeAllItems_idempotent_wrapped :
  validateRunCodeAllItems object_sandbox
    (VArray [VObject [("json", VObject [("a", VNumber 1)])];
             VObject [("json", VObject [("b", VNumber 2)])]]) =
  ok [VObject [("json", VObject [("a", VNumber 1)])];
      VObject [("json", VObject [("b", VNumber 2)])]].
Proof.
  apply (validateRunCodeAllItems_idempotent object_sandbox
           (VArray [VObject [("a", VNumber 1)]; VObject [("b", VNumber 2)]])).
  - reflexivity.
  - reflexivity.
  - repeat constructor.
Defined.

(** C8, refuted as stated: a single object that mixes [json] with an
    unknown key is accepted by all-items mode, and the sequence it returns
    is refused by the guard when all-items mode is run on it. *)
Lemma validateRunCodeAllItems_not_idempotent :
  validateRunCodeAllItems object_sandbox
    (VObject [("json", VObject []); ("foo", VNumber 1)]) =
  ok [VObject [("json", VObject []); ("foo", VNumber 1)]] /\
  validateRunCodeAllItems object_sandbox
    (VArray [VObject [("json", VObject []); ("foo", VNumber 1)]]) =
  throw (ReservedKeyFoundError "json" 0).
Proof. split; reflexivity. Qed.

(* ================================================================== *)
(** ** Supplements *)
(* ================================================================== *)

Lemma lookup_in_keys (name : string) (props : list (string * Value)) (v : Value) :
  lookup name props = Some v -> In name (map fst props).
Proof.
  induction props as [| [k x] rest IH]; simpl; intros H.
  - discriminate H.
  - destruct (String.eqb k name) eqn:Hk.
    + left. apply String.eqb_eq. exact Hk.
    + right. exact (IH H).
Qed.

(** An item the item validator accepts is an object that carries the
    key [json]. *)
Lemma validateItem_ok_has_json (this : Sandbox) (item : Value) (index : nat) :
  validateItem this item index = ok tt ->
  isObject item = true /\ has_n8n_key item = true.
Proof.
  intros H.
  assert (Hn := validateItem_ok_not_nullish this item index H).
  rewrite (validateItem_outcome this item index Hn) in H.
  destruct (isObject (get item "json")) eqn:Hj; simpl in H; [| discriminate H].
  destruct item as [| | b | n | s | elems | props]; try discriminate Hj.
  split; [reflexivity |].
  unfold has_n8n_key. apply existsb_exists. exists "json". split; [| reflexivity].
  simpl in Hj |- *. destruct (lookup "json" props) as [x |] eqn:Hl; [| discriminate Hj].
  exact (lookup_in_keys "json" props x Hl).
Qed.

(** The normalizer modelled from the spec returns a validated sequence
    unchanged. *)
Lemma normalizeItems_spec_validated (this : Sandbox) (items : list Value) :
  forEach (validateItem this) items = ok tt ->
  normalizeItems_spec (VArray items) = Normalized items.
Proof.
  intros Hvalid. simpl. f_equal.
  rewrite <- (map_id items) at 2. apply map_ext_in. intros item Hin.
  destruct (In_nth items item VUndefined Hin) as (j & Hj & Hnth).
  assert (Hitem := proj1 (forEach_from_ok (validateItem this) items 0) Hvalid j Hj).
  rewrite Hnth in Hitem.
  destruct (validateItem_ok_has_json this item (0 + j) Hitem) as [Hobj Hkey].
  unfold wrap_bare_payload. rewrite Hobj, Hkey. reflexivity.
Qed.

Lemma validateItem_no_classifier_error (this : Sandbox) (item : Value) (index : nat)
    (e : Exception) :
  validateItem this item index = throw e -> is_classifier_error e = false.
Proof.
  destruct (is_nullish item) eqn:Hn.
  - rewrite (validateItem_nullish this item index Hn). intros H.
    apply throw_inj in H. subst e. reflexivity.
  - rewrite (validateItem_outcome this item index Hn).
    destruct (negb (isObject (get item "json"))).
    + intros H. apply throw_inj in H. subst e. reflexivity.
    + destruct (negb (is_undefined (get item "binary")) &&
                negb (isObject (get item "binary"))).
      * intros H. apply throw_inj in H. subst e. reflexivity.
      * intros H. discriminate H.
Qed.

Lemma validateTopLevelKeys_no_classifier_error (item : Value) (index : nat)
    (e : Exception) :
  validateTopLevelKeys item index = throw e -> is_classifier_error e = false.
Proof.
  rewrite validateTopLevelKeys_scan.
  destruct (Nat.ltb 0 (List.length (unknown_keys item))); [| intros H; discriminate H].
  destruct (truthy_opt_string (hd_error (reserved_keys item)));
    intros H; apply throw_inj in H; subst e; reflexivity.
Qed.

(** The type gate of single-item mode is exact: a value whose type tag
    is 'object' and that is not an array never gets an error of the
    gates. *)
Lemma validateRunCodeEachItem_past_the_gates (this : Sandbox) (v : Value)
    (index : nat) (e : Exception) :
  typeof v = "object" ->
  Array_isArray v = false ->
  validateRunCodeEachItem this v index = throw e ->
  is_classifier_error e = false.
Proof.
  intros Htype Harray.
  rewrite (validateRunCodeEachItem_single this v index Htype Harray).
  unfold call_normalizeItems.
  destruct (normalizeItems (helpers this) (VArray [v])) as [normalized | msg].
  - rewrite bind_ok.
    destruct (validateItem this (nth 0 normalized VUndefined) index)
      as [e1 | []] eqn:Hitem.
    + intros H. apply throw_inj in H. subst e1.
      exact (validateItem_no_classifier_error this _ index e Hitem).
    + rewrite bind_ok.
      destruct (validateTopLevelKeys (nth 0 normalized VUndefined) index)
        as [e2 | []] eqn:Hguard.
      * intros H. apply throw_inj in H. subst e2.
        exact (validateTopLevelKeys_no_classifier_error _ index e Hguard).
      * intros H. discriminate H.
  - intros H. apply throw_inj in H. subst e. reflexivity.
Qed.

Lemma NonObjectResult_is_classifier_error (this : Sandbox) (v : Value) (index : nat) :
  is_classifier_error (NonObjectResult this v index) = true.
Proof. simpl. destruct (a_an_noun this); reflexivity. Qed.

(* ================================================================== *)
(** ** What the validators accept, and what their errors carry *)
(* ================================================================== *)

Lemma validateItem_ok_iff (this : Sandbox) (item : Value) (index : nat) :
  validateItem this item index = ok tt <-> well_formed_item item = true.
Proof.
  unfold well_formed_item. destruct (is_nullish item) eqn:Hn.
  - rewrite (validateItem_nullish this item index Hn).
    destruct item; try discriminate Hn; simpl; split; intros H; discriminate H.
  - rewrite (validateItem_outcome this item index Hn).
    destruct (isObject (get item "json")) eqn:Hj; simpl.
    + assert (Hobj : isObject item = true).
      { destruct item; try reflexivity; simpl in Hj; discriminate Hj. }
      rewrite Hobj. simpl.
      destruct (is_undefined (get item "binary")); simpl; [split; reflexivity |].
      destruct (isObject (get item "binary")); simpl; split; intros H;
        try reflexivity; discriminate H.
    + rewrite andb_false_r. simpl. split; intros H; discriminate H.
Qed.

(** X11. The item validator accepts an item exactly when the item is an
    object whose [json] is a structured object and whose [binary] is
    absent or a structured object; neither the item index nor the nouns
    of the sandbox play a part. *)
Theorem validateItem_accepts_well_formed (this : Sandbox) (item : Value) (index : nat) :
  (validateItem this item index = ok tt <-> well_formed_item item = true) /\
  (forall (other : Sandbox) (index' : nat),
      validateItem other item index' = ok tt <-> validateItem this item index = ok tt).
Proof.
  split.
  - apply validateItem_ok_iff.
  - intros other index'. rewrite !validateItem_ok_iff. reflexivity.
Qed.

Lemma validateItem_error_index (this : Sandbox) (item : Value) (index : nat)
    (e : Exception) :
  validateItem this item index = throw e ->
  is_validation_error e = true -> carried_index e = Some index.
Proof.
  destruct (is_nullish item) eqn:Hn.
  - rewrite (validateItem_nullish this item index Hn). intros H.
    apply throw_inj in H. subst e. intros Hv. discriminate Hv.
  - rewrite (validateItem_outcome this item index Hn).
    destruct (negb (isObject (get item "json"))).
    + intros H. apply throw_inj in H. subst e. reflexivity.
    + destruct (negb (is_undefined (get item "binary")) &&
                negb (isObject (get item "binary"))).
      * intros H. apply throw_inj in H. subst e. reflexivity.
      * intros H. discriminate H.
Qed.

(** X12. An item that is not an object never passes the item validator:
    destructuring [null] or [undefined] throws a [TypeError], and every
    other non-object (a boolean, a number, a string, an array) has no
    [json] and gets the malformed-json error with the item index. *)
Theorem validateItem_non_object (this : Sandbox) (item : Value) (index : nat) :
  isObject item = false ->
  validateItem this item index =
  throw (if is_nullish item then TypeError else MalformedJsonField this index).
Proof.
  intros Hobj. destruct (is_nullish item) eqn:Hn.
  - exact (validateItem_nullish this item index Hn).
  - rewrite (validateItem_outcome this item index Hn).
    destruct item; try reflexivity; discriminate Hobj.
Qed.

Lemma validateItem_non_object_array :
  validateItem dictionary_sandbox (VArray [VObject [("json", VObject [])]]) 4 =
  throw (ValidationError
    {| message := "A 'json' property isn't a dictionary";
       description :=
         "In the returned data, every key named 'json' must point to a dictionary.";
       itemIndex := Some 4 |}).
Proof.
  apply (validateItem_non_object dictionary_sandbox
           (VArray [VObject [("json", VObject [])]]) 4).
  reflexivity.
Defined.

Lemma filter_nil_forallb {A : Type} (p : A -> bool) (l : list A) :
  filter (fun x => negb (p x)) l = [] <-> forallb p l = true.
Proof.
  induction l as [| x rest IH]; simpl.
  - split; reflexivity.
  - destruct (p x); simpl.
    + exact IH.
    + split; intros H; discriminate H.
Qed.

Lemma validateTopLevelKeys_ok_iff (item : Value) (index : nat) :
  validateTopLevelKeys item index = ok tt <-> unknown_keys item = [].
Proof.
  rewrite validateTopLevelKeys_scan.
  destruct (unknown_keys item) as [| u us]; simpl.
  - split; reflexivity.
  - destruct (truthy_opt_string (hd_error (reserved_keys item)));
      split; intros H; discriminate H.
Qed.

(** X8. The top-level key guard passes exactly when every own key of the
    item is in the reserved key set; in particular it passes on an item
    without keys. *)
Theorem validateTopLevelKeys_passes_iff_all_reserved (item : Value) (index : nat) :
  validateTopLevelKeys item index = ok tt <->
  forallb REQUIRED_N8N_ITEM_KEYS_has (own_keys item) = true.
Proof.
  rewrite validateTopLevelKeys_ok_iff. unfold unknown_keys.
  apply filter_nil_forallb.
Qed.

Lemma filter_head_in {A : Type} (p : A -> bool) (l : list A) (x : A) (rest : list A) :
  filter p l = x :: rest -> In x l /\ p x = true.
Proof.
  intros H. apply filter_In. rewrite H. left. reflexivity.
Qed.

(** X9. Whatever the guard raises names a key the item really has: the
    reserved-key error names an own key of the item that is in the
    reserved key set, the unknown-key error names an own key that is not,
    and the latter is raised only when the item has no reserved key at
    all.  Both carry the item index. *)
Theorem validateTopLevelKeys_error_names_own_key (item : Value) (index : nat)
    (e : Exception) :
  validateTopLevelKeys item index = throw e ->
  (exists key, In key (own_keys item) /\ REQUIRED_N8N_ITEM_KEYS_has key = true /\
               unknown_keys item <> [] /\ e = ReservedKeyFoundError key index) \/
  (exists key, In key (own_keys item) /\ REQUIRED_N8N_ITEM_KEYS_has key = false /\
               reserved_keys item = [] /\ e = UnknownTopLevelKey key index).
Proof.
  rewrite validateTopLevelKeys_scan.
  destruct (unknown_keys item) as [| u us] eqn:Hu; simpl; [intros H; discriminate H |].
  destruct (reserved_keys item) as [| r rs] eqn:Hr.
  - simpl. intros H. apply throw_inj in H. subst e. right. exists u.
    destruct (filter_head_in _ _ _ _ Hu) as [Hin Hneg].
    apply negb_true_iff in Hneg. repeat split; assumption.
  - destruct (filter_head_in _ _ _ _ Hr) as [Hin Hres].
    simpl. rewrite (reserved_key_truthy r Hres).
    intros H. apply throw_inj in H. subst e. left. exists r.
    repeat split; try assumption. discriminate.
Qed.

Lemma validateTopLevelKeys_error_names_own_key_mixed :
  (exists key,
      In key ["a"; "error"; "json"] /\ REQUIRED_N8N_ITEM_KEYS_has key = true /\
      unknown_keys (VObject [("a", VNull); ("error", VNull); ("json", VNull)]) <> [] /\
      ReservedKeyFoundError "error" 2 = ReservedKeyFoundError key 2) \/
  (exists key,
      In key ["a"; "error"; "json"] /\ REQUIRED_N8N_ITEM_KEYS_has key = false /\
      reserved_keys (VObject [("a", VNull); ("error", VNull); ("json", VNull)]) = [] /\
      ReservedKeyFoundError "error" 2 = UnknownTopLevelKey key 2).
Proof.
  apply (validateTopLevelKeys_error_names_own_key
           (VObject [("a", VNull); ("error", VNull); ("json", VNull)]) 2
           (ReservedKeyFoundError "error" 2)).
  reflexivity.
Defined.

Lemma validateTopLevelKeys_error_index (item : Value) (index : nat) (e : Exception) :
  validateTopLevelKeys item index = throw e -> carried_index e = Some index.
Proof.
  rewrite validateTopLevelKeys_scan.
  destruct (Nat.ltb 0 (List.length (unknown_keys item))); [| intros H; discriminate H].
  destruct (truthy_opt_string (hd_error (reserved_keys item)));
    intros H; apply throw_inj in H; subst e; reflexivity.
Qed.

(* ================================================================== *)
(** ** Items that are arrays or strings *)
(* ================================================================== *)

Lemma index_key_not_reserved (i : nat) :
  REQUIRED_N8N_ITEM_KEYS_has (index_key i) = false.
Proof.
  destruct (REQUIRED_N8N_ITEM_KEYS_has (index_key i)) eqn:H; [| reflexivity].
  exfalso. apply reserved_key_cases in H. unfold index_key in H.
  assert (Hparse : NilZero.uint_of_string (NilZero.string_of_uint (Nat.to_uint i)) <> None).
  { destruct (NilZero.usu_gen (Nat.to_uint i)) as [Hu | Hu]; rewrite Hu; discriminate. }
  destruct H as [H | [H | [H | [H | H]]]]; rewrite H in Hparse;
    apply Hparse; reflexivity.
Qed.

Lemma index_keys_unknown (start n : nat) :
  filter (fun key => negb (REQUIRED_N8N_ITEM_KEYS_has key))
    (map index_key (seq start n)) = map index_key (seq start n) /\
  filter REQUIRED_N8N_ITEM_KEYS_has (map index_key (seq start n)) = [].
Proof.
  revert start. induction n as [| n IH]; intros start; simpl.
  - split; reflexivity.
  - rewrite (index_key_not_reserved start). simpl.
    destruct (IH (S start)) as [Hu Hr]. rewrite Hu, Hr. split; reflexivity.
Qed.

(** X10. An item that is a non-empty array, or a non-empty string, is
    refused by the guard for its first index: the guard raises the
    unknown-key error naming the key "0", since an index is never a
    reserved key.  The empty array and the empty string pass. *)
Theorem validateTopLevelKeys_indexed_item (index : nat) :
  (forall (first : Value) (rest : list Value),
      validateTopLevelKeys (VArray (first :: rest)) index =
      throw (UnknownTopLevelKey "0" index)) /\
  (forall (c : ascii) (rest : string),
      validateTopLevelKeys (VString (String c rest)) index =
      throw (UnknownTopLevelKey "0" index)) /\
  validateTopLevelKeys (VArray []) index = ok tt /\
  validateTopLevelKeys (VString EmptyString) index = ok tt.
Proof.
  assert (Hkeys : forall item n,
             own_keys item = index_keys (S n) ->
             validateTopLevelKeys item index = throw (UnknownTopLevelKey "0" index)).
  { intros item n Hown. rewrite validateTopLevelKeys_scan.
    unfold unknown_keys, reserved_keys. rewrite Hown. unfold index_keys.
    destruct (index_keys_unknown 0 (S n)) as [Hu Hr]. rewrite Hu, Hr.
    reflexivity. }
  split; [| split; [| split]].
  - intros first rest. apply (Hkeys _ (List.length rest)). reflexivity.
  - intros c rest. apply (Hkeys _ (String.length rest)). reflexivity.
  - reflexivity.
  - reflexivity.
Qed.

(* ================================================================== *)
(** ** Single-item mode: what is returned and what is raised *)
(* ================================================================== *)

Lemma validateRunCodeEachItem_ok_inv (this : Sandbox) (r x : Value) (index : nat) :
  validateRunCodeEachItem this r index = ok x ->
  typeof r = "object" /\ Array_isArray r = false /\
  exists normalized,
    normalizeItems (helpers this) (VArray [r]) = Normalized normalized /\
    x = nth 0 normalized VUndefined /\
    validateItem this x index = ok tt /\
    validateTopLevelKeys x index = ok tt.
Proof.
  intros H.
  assert (Htype : typeof r = "object").
  { unfold validateRunCodeEachItem in H.
    destruct (typeof r =? "object") eqn:Ht; [| discriminate H].
    apply String.eqb_eq. exact Ht. }
  assert (Harray : Array_isArray r = false).
  { destruct r; try reflexivity.
    unfold validateRunCodeEachItem in H. simpl in H. discriminate H. }
  split; [exact Htype |]. split; [exact Harray |].
  rewrite (validateRunCodeEachItem_single this r index Htype Harray) in H.
  unfold call_normalizeItems in H.
  destruct (normalizeItems (helpers this) (VArray [r])) as [normalized | msg];
    [| discriminate H].
  rewrite bind_ok in H.
  apply bind_ok_inv in H. destruct H as ([] & Hitem & H).
  apply bind_ok_inv in H. destruct H as ([] & Hguard & H).
  injection H as <-.
  exists normalized. repeat split; assumption.
Qed.

(** X1. What single-item mode returns is a checked item: when
    [validateRunCodeEachItem] returns [x], the result handed in was an
    object and not an array, [x] is the first item of the normalizer's
    output for the one-element sequence, [x] is an object whose [json] is
    a structured object and whose [binary] is absent or a structured
    object, and [x] has no top-level key outside the reserved key set. *)
Theorem validateRunCodeEachItem_returns_checked_item (this : Sandbox) (r x : Value)
    (index : nat) :
  validateRunCodeEachItem this r index = ok x ->
  typeof r = "object" /\
  Array_isArray r = false /\
  (exists rest, normalizeItems (helpers this) (VArray [r]) = Normalized (x :: rest)) /\
  well_formed_item x = true /\
  unknown_keys x = [].
Proof.
  intros H. apply validateRunCodeEachItem_ok_inv in H.
  destruct H as (Htype & Harray & normalized & Hn & Hx & Hitem & Hguard).
  split; [exact Htype |]. split; [exact Harray |]. split; [| split].
  - destruct normalized as [| first rest].
    + simpl in Hx. subst x. simpl in Hitem. discriminate Hitem.
    + simpl in Hx. subst x. exists rest. exact Hn.
  - exact (proj1 (validateItem_ok_iff this x index) Hitem).
  - exact (proj1 (validateTopLevelKeys_ok_iff x index) Hguard).
Qed.

Lemma validateRunCodeEachItem_returns_checked_item_wrapped :
  typeof (VObject [("notAJsonKey", VNumber 1)]) = "object" /\
  Array_isArray (VObject [("notAJsonKey", VNumber 1)]) = false /\
  (exists rest,
      normalizeItems (helpers object_sandbox)
        (VArray [VObject [("notAJsonKey", VNumber 1)]]) =
      Normalized (VObject [("json", VObject [("notAJsonKey", VNumber 1)])] :: rest)) /\
  well_formed_item (VObject [("json", VObject [("notAJsonKey", VNumber 1)])]) = true /\
  unknown_keys (VObject [("json", VObject [("notAJsonKey", VNumber 1)])]) = [].
Proof.
  apply (validateRunCodeEachItem_returns_checked_item object_sandbox
           (VObject [("notAJsonKey", VNumber 1)])
           (VObject [("json", VObject [("notAJsonKey", VNumber 1)])]) 0).
  reflexivity.
Defined.

(** X2. Every [ValidationError] that single-item mode raises, of the
    subclass or not and whichever stage raises it, carries the item index
    the call was given. *)
Theorem validateRunCodeEachItem_error_index (this : Sandbox) (r : Value) (index : nat)
    (e : Exception) :
  validateRunCodeEachItem this r index = throw e ->
  is_validation_error e = true ->
  carried_index e = Some index.
Proof.
  intros H Hv.
  destruct (typeof r =? "object") eqn:Ht.
  - apply String.eqb_eq in Ht. destruct (Array_isArray r) eqn:Harray.
    + destruct r; try discriminate Harray.
      unfold validateRunCodeEachItem in H. simpl in H.
      apply throw_inj in H. subst e. reflexivity.
    + rewrite (validateRunCodeEachItem_single this r index Ht Harray) in H.
      unfold call_normalizeItems in H.
      destruct (normalizeItems (helpers this) (VArray [r])) as [normalized | msg].
      * rewrite bind_ok in H.
        destruct (validateItem this (nth 0 normalized VUndefined) index)
          as [e1 | []] eqn:Hitem.
        -- apply throw_inj in H. subst e1.
           exact (validateItem_error_index this _ index e Hitem Hv).
        -- rewrite bind_ok in H.
           destruct (validateTopLevelKeys (nth 0 normalized VUndefined) index)
             as [e2 | []] eqn:Hguard.
           ++ apply throw_inj in H. subst e2.
              exact (validateTopLevelKeys_error_index _ index e Hguard).
           ++ discriminate H.
      * apply throw_inj in H. subst e. discriminate Hv.
  - unfold validateRunCodeEachItem in H. rewrite Ht in H. simpl in H.
    apply throw_inj in H. subst e. reflexivity.
Qed.

Lemma validateRunCodeEachItem_error_index_collision :
  carried_index (ReservedKeyFoundError "json" 6) = Some 6.
Proof.
  apply (validateRunCodeEachItem_error_index object_sandbox
           (VObject [("json", VObject [("a", VNumber 1)]); ("foo", VNumber 2)]) 6
           (ReservedKeyFoundError "json" 6)).
  - reflexivity.
  - reflexivity.
Defined.

(** X14. Single-item mode reads the first normalized item only: when the
    normalizer returns an empty sequence for an object result, the item is
    [undefined] and destructuring it throws a [TypeError]. *)
Theorem validateRunCodeEachItem_no_normalized_item (this : Sandbox) (r : Value)
    (index : nat) :
  typeof r = "object" ->
  Array_isArray r = false ->
  normalizeItems (helpers this) (VArray [r]) = Normalized [] ->
  validateRunCodeEachItem this r index = throw TypeError.
Proof.
  intros Htype Harray Hn.
  rewrite (validateRunCodeEachItem_single this r index Htype Harray).
  unfold call_normalizeItems. rewrite Hn. reflexivity.
Qed.

Lemma validateRunCodeEachItem_no_normalized_item_empty :
  validateRunCodeEachItem
    {| textKeys := textKeys object_sandbox;
       helpers := {| normalizeItems := fun _ => Normalized [] |} |}
    (VObject [("json", VObject [])]) 0 = throw TypeError.
Proof.
  apply validateRunCodeEachItem_no_normalized_item; reflexivity.
Defined.

(* ================================================================== *)
(** ** All-items mode: what is returned and what is raised *)
(* ================================================================== *)

(** X3. All-items mode refuses every result whose type tag is not
    'object' (a number, a string, a boolean, [undefined]) with one and
    the same error, "Code doesn't return items properly", which carries no
    item index; the normalizer is not called. *)
Theorem validateRunCodeAllItems_non_object (this : Sandbox) (v : Value) :
  typeof v <> "object" ->
  validateRunCodeAllItems this v = throw (ItemsNotReturnedProperly this).
Proof.
  intros Hgate.
  destruct (typeof_not_object v Hgate) as [-> | [[b ->] | [[n ->] | [s ->]]]];
    reflexivity.
Qed.

Lemma validateRunCodeAllItems_non_object_string :
  validateRunCodeAllItems dictionary_sandbox (VString "json") =
  throw (ValidationError
    {| message := "Code doesn't return items properly";
       description :=
         "Please return an array of dictionaries, one for each item you would like to output.";
       itemIndex := None |}).
Proof.
  apply (validateRunCodeAllItems_non_object dictionary_sandbox (VString "json")).
  simpl. discriminate.
Defined.

Lemma Array_some_false_inv (elems : list Value) :
  Array_some finds_n8n_key elems = ok false ->
  existsb has_n8n_key elems = false.
Proof.
  induction elems as [| item rest IH]; simpl; intros H.
  - reflexivity.
  - destruct (is_nullish item) eqn:Hn.
    + destruct item; try discriminate Hn; simpl in H; discriminate H.
    + rewrite (finds_n8n_key_defined item Hn), bind_ok in H.
      destruct (has_n8n_key item); [discriminate H |]. simpl. exact (IH H).
Qed.

Lemma nullish_no_unknown_keys (item : Value) :
  is_nullish item = true -> unknown_keys item = [].
Proof. destruct item; simpl; intros H; try discriminate H; reflexivity. Qed.

Lemma guard_array_ok_inv (elems : list Value) :
  guard_array elems = ok tt ->
  existsb has_n8n_key elems = true ->
  Forall (fun item => unknown_keys item = []) elems.
Proof.
  unfold guard_array. intros H Hsome.
  apply bind_ok_inv in H. destruct H as (must & Hmust & Hloop).
  destruct must.
  - apply Forall_nth. intros j d Hj.
    rewrite (nth_indep elems d VUndefined Hj).
    apply (validateTopLevelKeys_ok_iff _ (0 + j)).
    exact (proj1 (forEach_from_ok validateTopLevelKeys elems 0) Hloop j Hj).
  - rewrite (Array_some_false_inv elems Hmust) in Hsome. discriminate Hsome.
Qed.

Lemma validateRunCodeAllItems_ok_guard (this : Sandbox) (elems : list Value)
    (returnData : list Value) :
  validateRunCodeAllItems this (VArray elems) = ok returnData ->
  guard_array elems = ok tt.
Proof.
  rewrite validateRunCodeAllItems_array. intros H.
  apply bind_ok_inv in H. destruct H as ([] & Hguard & _). exact Hguard.
Qed.

(** X4. What all-items mode returns is checked: when
    [validateRunCodeAllItems] returns a sequence, the result handed in had
    the type tag 'object', the sequence is the normalizer's output for it,
    unchanged, every item of the sequence is an object whose [json] is a
    structured object and whose [binary] is absent or a structured object,
    and, when the result was an array one of whose elements has a reserved
    key, no element of that array has a top-level key outside the reserved
    key set. *)
Theorem validateRunCodeAllItems_returns_checked_items (this : Sandbox)
    (executionResult : Value) (returnData : list Value) :
  validateRunCodeAllItems this executionResult = ok returnData ->
  typeof executionResult = "object" /\
  normalizeItems (helpers this) executionResult = Normalized returnData /\
  Forall (fun item => well_formed_item item = true) returnData /\
  (forall elems : list Value,
      executionResult = VArray elems ->
      existsb has_n8n_key elems = true ->
      Forall (fun item => unknown_keys item = []) elems).
Proof.
  intros H.
  destruct (validateRunCodeAllItems_ok_inv this executionResult returnData H)
    as [Hnorm Hvalid].
  split; [| split; [exact Hnorm | split]].
  - unfold validateRunCodeAllItems in H.
    destruct (typeof executionResult =? "object") eqn:Ht; [| discriminate H].
    apply String.eqb_eq. exact Ht.
  - apply Forall_nth. intros j d Hj.
    rewrite (nth_indep returnData d VUndefined Hj).
    apply (validateItem_ok_iff this _ (0 + j)).
    exact (proj1 (forEach_from_ok (validateItem this) returnData 0) Hvalid j Hj).
  - intros elems -> Hsome.
    exact (guard_array_ok_inv elems
             (validateRunCodeAllItems_ok_guard this elems returnData H) Hsome).
Qed.

Lemma validateRunCodeAllItems_returns_checked_items_pair :
  typeof (VArray [VObject [("json", VObject [])];
                  VObject [("json", VObject []); ("binary", VObject [])]]) = "object" /\
  normalizeItems (helpers object_sandbox)
    (VArray [VObject [("json", VObject [])];
             VObject [("json", VObject []); ("binary", VObject [])]]) =
  Normalized [VObject [("json", VObject [])];
              VObject [("json", VObject []); ("binary", VObject [])]] /\
  Forall (fun item => well_formed_item item = true)
    [VObject [("json", VObject [])];
     VObject [("json", VObject []); ("binary", VObject [])]] /\
  (forall elems : list Value,
      VArray [VObject [("json", VObject [])];
              VObject [("json", VObject []); ("binary", VObject [])]] = VArray elems ->
      existsb has_n8n_key elems = true ->
      Forall (fun item => unknown_keys item = []) elems).
Proof.
  apply (validateRunCodeAllItems_returns_checked_items object_sandbox).
  reflexivity.
Defined.

(** X5. Item validation in all-items mode is fail-fast in index order:
    when the result is an object that is not an array, or an array whose
    guard pass raises nothing, and the normalizer returns a sequence whose
    item [k] is the first one the item validator refuses, the call raises
    what the item validator raises on item [k], and a [ValidationError] so
    raised carries the index [k]. *)
Theorem validateRunCodeAllItems_first_invalid_item (this : Sandbox)
    (executionResult : Value) (items : list Value) (k : nat) (e : Exception) :
  typeof executionResult = "object" ->
  (forall elems, executionResult = VArray elems -> guard_array elems = ok tt) ->
  normalizeItems (helpers this) executionResult = Normalized items ->
  k < List.length items ->
  (forall j, j < k -> validateItem this (nth j items VUndefined) j = ok tt) ->
  validateItem this (nth k items VUndefined) k = throw e ->
  validateRunCodeAllItems this executionResult = throw e /\
  (is_validation_error e = true -> carried_index e = Some k).
Proof.
  intros Htype Hguard Hnorm Hk Hbefore Hat. split.
  - unfold validateRunCodeAllItems. rewrite Htype. simpl.
    assert (Hstage : match executionResult with
                     | VArray elems => guard_array elems
                     | _ => ok tt
                     end = ok tt).
    { destruct executionResult; try reflexivity. apply Hguard. reflexivity. }
    rewrite Hstage, bind_ok, normalize_and_validate_outcome, Hnorm.
    unfold forEach.
    rewrite (forEach_from_first_throw (validateItem this) items 0 k e Hk Hbefore Hat).
    reflexivity.
  - exact (validateItem_error_index this _ k e Hat).
Qed.

Lemma validateRunCodeAllItems_first_invalid_item_second :
  validateRunCodeAllItems object_sandbox
    (VArray [VObject [("json", VObject [])];
             VObject [("json", VNumber 1)];
             VObject [("json", VNull)]]) =
  throw (MalformedJsonField object_sandbox 1) /\
  (is_validation_error (MalformedJsonField object_sandbox 1) = true ->
   carried_index (MalformedJsonField object_sandbox 1) = Some 1).
Proof.
  apply (validateRunCodeAllItems_first_invalid_item object_sandbox _
           [VObject [("json", VObject [])];
            VObject [("json", VNumber 1)];
            VObject [("json", VNull)]] 1).
  - reflexivity.
  - intros elems Heq. injection Heq as <-. reflexivity.
  - reflexivity.
  - simpl. lia.
  - intros j Hj. destruct j as [| j]; [reflexivity | lia].
  - reflexivity.
Defined.

Lemma Array_some_throws_TypeError (elems : list Value) (e : Exception) :
  Array_some finds_n8n_key elems = throw e -> e = TypeError.
Proof.
  induction elems as [| item rest IH]; simpl; intros H.
  - discriminate H.
  - destruct (is_nullish item) eqn:Hn.
    + destruct item; try discriminate Hn; simpl in H;
        apply throw_inj in H; symmetry; exact H.
    + rewrite (finds_n8n_key_defined item Hn), bind_ok in H.
      destruct (has_n8n_key item); [discriminate H | exact (IH H)].
Qed.

Lemma Array_some_reaches_nullish (elems : list Value) (k : nat) :
  k < List.length elems ->
  is_nullish (nth k elems VUndefined) = true ->
  (forall j, j < k ->
             is_nullish (nth j elems VUndefined) = false /\
             has_n8n_key (nth j elems VUndefined) = false) ->
  Array_some finds_n8n_key elems = throw TypeError.
Proof.
  revert k. induction elems as [| item rest IH]; intros k Hk Hat Hbefore.
  - simpl in Hk. lia.
  - destruct k as [| k].
    + simpl in Hat. destruct item; try discriminate Hat; reflexivity.
    + destruct (Hbefore 0 ltac:(lia)) as [Hn Hkey]. simpl in Hn, Hkey.
      simpl. rewrite (finds_n8n_key_defined item Hn), bind_ok, Hkey.
      apply (IH k).
      * simpl in Hk. lia.
      * exact Hat.
      * intros j Hj. exact (Hbefore (S j) ltac:(lia)).
Qed.

(** X6. An array with a [null] or [undefined] element that no element
    with a reserved key precedes makes all-items mode throw a [TypeError]
    (from [Object.keys]) instead of a [ValidationError]: neither the guard
    nor the normalizer is reached. *)
Theorem validateRunCodeAllItems_nullish_element (this : Sandbox) (elems : list Value)
    (k : nat) :
  k < List.length elems ->
  is_nullish (nth k elems VUndefined) = true ->
  (forall j, j < k ->
             is_nullish (nth j elems VUndefined) = false /\
             has_n8n_key (nth j elems VUndefined) = false) ->
  validateRunCodeAllItems this (VArray elems) = throw TypeError.
Proof.
  intros Hk Hat Hbefore.
  rewrite validateRunCodeAllItems_array. unfold guard_array.
  rewrite (Array_some_reaches_nullish elems k Hk Hat Hbefore). reflexivity.
Qed.

Lemma validateRunCodeAllItems_nullish_element_second :
  validateRunCodeAllItems object_sandbox
    (VArray [VObject [("a", VNumber 1)]; VNull; VObject [("json", VObject [])]]) =
  throw TypeError.
Proof.
  apply (validateRunCodeAllItems_nullish_element object_sandbox _ 1).
  - simpl. lia.
  - reflexivity.
  - intros j Hj. destruct j as [| j]; [split; reflexivity | lia].
Defined.

Lemma Array_some_reaches_key (elems : list Value) (k : nat) :
  k < List.length elems ->
  has_n8n_key (nth k elems VUndefined) = true ->
  (forall j, j <= k -> is_nullish (nth j elems VUndefined) = false) ->
  Array_some finds_n8n_key elems = ok true.
Proof.
  revert k. induction elems as [| item rest IH]; intros k Hk Hat Hbefore.
  - simpl in Hk. lia.
  - assert (Hn : is_nullish item = false) by exact (Hbefore 0 ltac:(lia)).
    simpl. rewrite (finds_n8n_key_defined item Hn), bind_ok.
    destruct (has_n8n_key item) eqn:Hkey; [reflexivity |].
    destruct k as [| k].
    + simpl in Hat. rewrite Hat in Hkey. discriminate Hkey.
    + apply (IH k).
      * simpl in Hk. lia.
      * exact Hat.
      * intros j Hj. exact (Hbefore (S j) ltac:(lia)).
Qed.

(** X7. The search for a reserved key stops at the first element that
    has one: when an element with a reserved key is preceded by elements
    that are neither [null] nor [undefined], the guard pass runs, whatever
    follows that element; and the guard lets a [null] or [undefined]
    element through, so such an element after the first keyed one raises
    nothing before the normalizer. *)
Theorem validateRunCodeAllItems_search_stops (this : Sandbox) (elems : list Value)
    (k : nat) :
  k < List.length elems ->
  has_n8n_key (nth k elems VUndefined) = true ->
  (forall j, j <= k -> is_nullish (nth j elems VUndefined) = false) ->
  validateRunCodeAllItems this (VArray elems) =
  (forEach_from validateTopLevelKeys 0 elems ;;;
   normalize_and_validate this (VArray elems)) /\
  (forall (item : Value) (index : nat),
      is_nullish item = true -> validateTopLevelKeys item index = ok tt).
Proof.
  intros Hk Hat Hbefore. split.
  - rewrite validateRunCodeAllItems_array. unfold guard_array.
    rewrite (Array_some_reaches_key elems k Hk Hat Hbefore). reflexivity.
  - intros item index Hn. apply validateTopLevelKeys_ok_iff.
    exact (nullish_no_unknown_keys item Hn).
Qed.

Lemma validateRunCodeAllItems_search_stops_null_after :
  validateRunCodeAllItems failing_sandbox
    (VArray [VObject [("json", VObject [])]; VNull]) =
  (forEach_from validateTopLevelKeys 0 [VObject [("json", VObject [])]; VNull] ;;;
   normalize_and_validate failing_sandbox
     (VArray [VObject [("json", VObject [])]; VNull])) /\
  (forall (item : Value) (index : nat),
      is_nullish item = true -> validateTopLevelKeys item index = ok tt).
Proof.
  apply (validateRunCodeAllItems_search_stops failing_sandbox _ 0).
  - simpl. lia.
  - reflexivity.
  - intros j Hj. assert (j = 0) as -> by lia. reflexivity.
Defined.

Example validateRunCodeAllItems_null_after_key :
  validateRunCodeAllItems failing_sandbox
    (VArray [VObject [("json", VObject [])]; VNull]) =
  throw (NormalizerFailure "Inconsistent item format").
Proof. reflexivity. Qed.

Lemma forEach_from_throw_first (f : Value -> nat -> Result unit) (elems : list Value)
    (index : nat) (e : Exception) :
  forEach_from f index elems = throw e ->
  exists k, k < List.length elems /\
            (forall j, j < k -> f (nth j elems VUndefined) (index + j) = ok tt) /\
            f (nth k elems VUndefined) (index + k) = throw e.
Proof.
  revert index. induction elems as [| item rest IH]; intros index H; simpl in H.
  - discriminate H.
  - destruct (f item index) as [e' | []] eqn:Hf; simpl in H.
    + exists 0. split; [simpl; lia |]. split; [intros j Hj; lia |].
      simpl. rewrite Nat.add_0_r, Hf. exact H.
    + destruct (IH (S index) H) as (k & Hk & Hbefore & Hat).
      exists (S k). split; [simpl; lia |]. split.
      * intros [| j] Hj.
        -- simpl. rewrite Nat.add_0_r. exact Hf.
        -- simpl. rewrite Nat.add_succ_r. apply Hbefore. lia.
      * simpl. rewrite Nat.add_succ_r. exact Hat.
Qed.

(** X13. A guard error out of all-items mode points at the array handed
    in: when [validateRunCodeAllItems] raises [ReservedKeyFoundError] or
    the unknown-key error, the result was an array, the index the error
    carries is the position of an element of that array, the guard raises
    that very error on that element, and it passes on every element
    before it. *)
Theorem validateRunCodeAllItems_guard_error_origin (this : Sandbox)
    (executionResult : Value) (e : Exception) :
  validateRunCodeAllItems this executionResult = throw e ->
  is_guard_error e = true ->
  exists (elems : list Value) (k : nat),
    executionResult = VArray elems /\
    k < List.length elems /\
    carried_index e = Some k /\
    validateTopLevelKeys (nth k elems VUndefined) k = throw e /\
    (forall j, j < k -> validateTopLevelKeys (nth j elems VUndefined) j = ok tt).
Proof.
  intros H Hg.
  unfold validateRunCodeAllItems in H.
  destruct (negb (typeof executionResult =? "object")).
  - apply throw_inj in H. subst e. discriminate Hg.
  - assert (Htail : forall e', normalize_and_validate this executionResult = throw e' ->
                               e' <> e).
    { intros e' He' ->.
      rewrite (normalize_and_validate_no_guard_error this _ e He') in Hg.
      discriminate Hg. }
    destruct executionResult as [| | b | n | s | elems | props];
      try (rewrite bind_ok in H; exfalso; exact (Htail e H eq_refl)).
    unfold guard_array in H.
    destruct (Array_some finds_n8n_key elems) as [e0 | must] eqn:Hsome.
    + apply throw_inj in H. subst e0.
      rewrite (Array_some_throws_TypeError elems e Hsome) in Hg. discriminate Hg.
    + rewrite bind_ok in H. destruct must.
      * destruct (forEach_from validateTopLevelKeys 0 elems) as [e1 | []] eqn:Hloop.
        -- apply throw_inj in H. subst e1.
           destruct (forEach_from_throw_first _ elems 0 e Hloop)
             as (k & Hk & Hbefore & Hat).
           exists elems, k. simpl in Hat.
           repeat split; try assumption.
           exact (validateTopLevelKeys_error_index _ k e Hat).
        -- rewrite bind_ok in H. exfalso. exact (Htail e H eq_refl).
      * rewrite bind_ok in H. exfalso. exact (Htail e H eq_refl).
Qed.

Lemma validateRunCodeAllItems_guard_error_origin_mixed :
  exists (elems : list Value) (k : nat),
    VArray [VObject [("json", VObject [])]; VObject [("notJson", VNumber 1)]] =
    VArray elems /\
    k < List.length elems /\
    carried_index (UnknownTopLevelKey "notJson" 1) = Some k /\
    validateTopLevelKeys (nth k elems VUndefined) k =
    throw (UnknownTopLevelKey "notJson" 1) /\
    (forall j, j < k -> validateTopLevelKeys (nth j elems VUndefined) j = ok tt).
Proof.
  apply (validateRunCodeAllItems_guard_error_origin object_sandbox).
  - reflexivity.
  - reflexivity.
Defined.

(** X16. Single-item mode is the stricter of the two on one object: when
    [validateRunCodeEachItem] accepts a result and returns the item [x],
    and the normalizer takes the bare result to the one-item sequence of
    [x], then [validateRunCodeAllItems] accepts the result and returns
    that sequence. *)
Theorem validateRunCodeAllItems_accepts_accepted_item (this : Sandbox) (r x : Value)
    (index : nat) :
  validateRunCodeEachItem this r index = ok x ->
  normalizeItems (helpers this) r = Normalized [x] ->
  validateRunCodeAllItems this r = ok [x].
Proof.
  intros Heach Hnorm.
  destruct (validateRunCodeEachItem_ok_inv this r x index Heach)
    as (Htype & Harray & _ & _ & _ & Hitem & _).
  unfold validateRunCodeAllItems. rewrite Htype. simpl.
  assert (Hstage : match r with
                   | VArray elems => guard_array elems
                   | _ => ok tt
                   end = ok tt)
    by (destruct r; try reflexivity; discriminate Harray).
  rewrite Hstage, bind_ok, normalize_and_validate_outcome, Hnorm.
  unfold forEach. simpl.
  rewrite (proj2 (validateItem_ok_iff this x 0)
             (proj1 (validateItem_ok_iff this x index) Hitem)).
  reflexivity.
Qed.

Lemma validateRunCodeAllItems_accepts_accepted_item_json :
  validateRunCodeAllItems object_sandbox (VObject [("json", VObject [("a", VNumber 1)])]) =
  ok [VObject [("json", VObject [("a", VNumber 1)])]].
Proof.
  apply (validateRunCodeAllItems_accepts_accepted_item object_sandbox _ _ 3);
    reflexivity.
Defined.

(* ================================================================== *)
(** ** The sandbox context *)
(* ================================================================== *)

Lemma lookup_set_prop_same (name : string) (v : Context.ContextValue)
    (props : list (string * Context.ContextValue)) :
  Context.lookup_prop name (Context.set_prop name v props) = Some v.
Proof.
  induction props as [| [k old] rest IH]; simpl.
  - rewrite String.eqb_refl. reflexivity.
  - destruct (String.eqb k name) eqn:Hk; simpl; rewrite Hk; [reflexivity | exact IH].
Qed.

Lemma lookup_set_prop_other (name other : string) (v : Context.ContextValue)
    (props : list (string * Context.ContextValue)) :
  name <> other ->
  Context.lookup_prop other (Context.set_prop name v props) =
  Context.lookup_prop other props.
Proof.
  intros Hne. induction props as [| [k old] rest IH]; simpl.
  - destruct (String.eqb name other) eqn:Hk; [| reflexivity].
    apply String.eqb_eq in Hk. contradiction.
  - destruct (String.eqb k name) eqn:Hk; simpl.
    + apply String.eqb_eq in Hk. subst k.
      destruct (String.eqb name other) eqn:Hk'; [| reflexivity].
      apply String.eqb_eq in Hk'. contradiction.
    + rewrite IH. reflexivity.
Qed.

Lemma lookup_prop_cons (name k : string) (v : Context.ContextValue)
    (rest : list (string * Context.ContextValue)) :
  Context.lookup_prop name ((k, v) :: rest) =
  if String.eqb k name then Some v else Context.lookup_prop name rest.
Proof. reflexivity. Qed.

Lemma lookup_prop_none (name : string) (props : list (string * Context.ContextValue)) :
  Context.lookup_prop name props = None <-> ~ In name (map fst props).
Proof.
  induction props as [| [k v] rest IH]; simpl.
  - split; [intros _ [] | reflexivity].
  - destruct (String.eqb k name) eqn:Hk.
    + apply String.eqb_eq in Hk. split; [intros H; discriminate H |].
      intros H. exfalso. apply H. left. exact Hk.
    + apply String.eqb_neq in Hk. rewrite IH. tauto.
Qed.

(** Spreading an object leaves the names it does not define as they
    were. *)
Lemma lookup_spread_absent (name : string)
    (source target : list (string * Context.ContextValue)) :
  Context.lookup_prop name source = None ->
  Context.lookup_prop name (Context.spread source target) =
  Context.lookup_prop name target.
Proof.
  unfold Context.spread. revert target.
  induction source as [| [k v] rest IH]; intros target H; simpl in *.
  - reflexivity.
  - destruct (String.eqb k name) eqn:Hk; [discriminate H |].
    rewrite (IH _ H). apply lookup_set_prop_other.
    apply String.eqb_neq. exact Hk.
Qed.

(** Spreading an object defines each of its names with its value. *)
Lemma lookup_spread_present (name : string) (v : Context.ContextValue)
    (source target : list (string * Context.ContextValue)) :
  NoDup (map fst source) ->
  Context.lookup_prop name source = Some v ->
  Context.lookup_prop name (Context.spread source target) = Some v.
Proof.
  unfold Context.spread. revert target.
  induction source as [| [k x] rest IH]; intros target Hnd H; simpl in *.
  - discriminate H.
  - inversion Hnd as [| k' keys Hnotin Hnd']. subst.
    destruct (String.eqb k name) eqn:Hk.
    + apply String.eqb_eq in Hk. subst k. injection H as ->.
      fold (Context.spread rest (Context.set_prop name v target)).
      rewrite lookup_spread_absent.
      * apply lookup_set_prop_same.
      * apply lookup_prop_none. exact Hnotin.
    + exact (IH _ Hnd' H).
Qed.

Lemma getSandboxContext_ok_inv (this : Context.ExecuteFunctions) (index : nat)
    (context : list (string * Context.ContextValue)) :
  Context.getSandboxContext this index = inr context ->
  exists b1 b2 g1 g2 proxy,
    Context.Function_bind
      (Context.get_prop (Context.helpers this) "httpRequestWithAuthentication") this =
    ok b1 /\
    Context.Function_bind
      (Context.get_prop (Context.helpers this) "requestWithAuthenticationPaginated") this =
    ok b2 /\
    Context.Function_bind (Context.getNodeParameter this) this = ok g1 /\
    Context.Function_bind (Context.getWorkflowStaticData this) this = ok g2 /\
    Context.call_getWorkflowDataProxy this index = inr proxy /\
    context =
    Context.spread proxy
      (Context.set_prop "helpers"
         (Context.CObject
            (Context.set_prop "requestWithAuthenticationPaginated" b2
               (Context.set_prop "httpRequestWithAuthentication" b1
                  (Context.spread (Context.helpers this) []))))
         (Context.set_prop "$getWorkflowStaticData" g2
            (Context.set_prop "$getNodeParameter" g1 []))).
Proof.
  unfold Context.getSandboxContext. intros H.
  destruct (Context.Function_bind
              (Context.get_prop (Context.helpers this) "httpRequestWithAuthentication")
              this) as [e1 | b1]; [discriminate H |].
  destruct (Context.Function_bind
              (Context.get_prop (Context.helpers this)
                 "requestWithAuthenticationPaginated") this) as [e2 | b2];
    [discriminate H |].
  destruct (Context.Function_bind (Context.getNodeParameter this) this) as [e3 | g1];
    [discriminate H |].
  destruct (Context.Function_bind (Context.getWorkflowStaticData this) this)
    as [e4 | g2]; [discriminate H |].
  destruct (Context.call_getWorkflowDataProxy this index) as [t | proxy];
    [discriminate H |].
  simpl in H. injection H as <-.
  exists b1, b2, g1, g2, proxy. repeat split.
Qed.






(** X18. The data-proxy bindings win: every name the data proxy defines
    for the item index is bound in the context to the proxy's value, also
    when the name is [helpers], [$getNodeParameter] or
    [$getWorkflowStaticData]. *)
Theorem getSandboxContext_proxy_binding (this : Context.ExecuteFunctions) (index : nat)
    (context proxy : list (string * Context.ContextValue)) (name : string)
    (v : Context.ContextValue) :
  Context.call_getWorkflowDataProxy this index = inr proxy ->
  NoDup (map fst proxy) ->
  Context.getSandboxContext this index = inr context ->
  Context.lookup_prop name proxy = Some v ->
  Context.lookup_prop name context = Some v.
Proof.
  intros Hcall Hnd Hctx Hproxy.
  destruct (getSandboxContext_ok_inv this index context Hctx)
    as (b1 & b2 & g1 & g2 & proxy' & _ & _ & _ & _ & Hcall' & ->).
  rewrite Hcall in Hcall'. injection Hcall' as <-.
  exact (lookup_spread_present name v _ _ Hnd Hproxy).
Qed.

Lemma getSandboxContext_proxy_binding_helpers :
  Context.lookup_prop "helpers"
    (Context.context_of (Context.getSandboxContext Context.example_caller 7)) =
  Some (Context.CData VNull).
Proof.
  apply (getSandboxContext_proxy_binding Context.example_caller 7 _
           [("$json", Context.CData (VObject [("n", VNumber 7)]));
            ("$itemIndex", Context.CData (VNumber 7));
            ("helpers", Context.CData VNull)]).
  - reflexivity.
  - simpl. repeat constructor; simpl; intuition discriminate.
  - reflexivity.
  - reflexivity.
Defined.

(** X19. For a name the data proxy does not define, the context holds
    the three fixed bindings and nothing else: [$getNodeParameter] and
    [$getWorkflowStaticData] are the caller's accessors bound to the
    caller, [helpers] is an object, and every other name is absent. *)
Theorem getSandboxContext_fixed_bindings (this : Context.ExecuteFunctions) (index : nat)
    (context : list (string * Context.ContextValue)) :
  Context.getSandboxContext this index = inr context ->
  exists g1 g2 bundle proxy,
    Context.Function_bind (Context.getNodeParameter this) this = ok g1 /\
    Context.Function_bind (Context.getWorkflowStaticData this) this = ok g2 /\
    Context.call_getWorkflowDataProxy this index = inr proxy /\
    (forall name,
        Context.lookup_prop name proxy = None ->
        Context.lookup_prop name context =
        if String.eqb name "$getNodeParameter" then Some g1
        else if String.eqb name "$getWorkflowStaticData" then Some g2
        else if String.eqb name "helpers" then Some (Context.CObject bundle)
        else None).
Proof.
  intros Hctx.
  destruct (getSandboxContext_ok_inv this index context Hctx)
    as (b1 & b2 & g1 & g2 & proxy & _ & _ & Hg1 & Hg2 & Hcall & ->).
  exists g1, g2,
    (Context.set_prop "requestWithAuthenticationPaginated" b2
       (Context.set_prop "httpRequestWithAuthentication" b1
          (Context.spread (Context.helpers this) []))), proxy.
  split; [exact Hg1 |]. split; [exact Hg2 |]. split; [exact Hcall |].
  intros name Hproxy. rewrite (lookup_spread_absent name _ _ Hproxy).
  match goal with
  | |- Context.lookup_prop name (Context.set_prop _ ?h _) = _ =>
      change (Context.set_prop "helpers" h
                (Context.set_prop "$getWorkflowStaticData" g2
                   (Context.set_prop "$getNodeParameter" g1 [])))
        with [("$getNodeParameter", g1); ("$getWorkflowStaticData", g2);
              ("helpers", h)]
  end.
  rewrite !lookup_prop_cons.
  rewrite (String.eqb_sym "$getNodeParameter" name).
  rewrite (String.eqb_sym "$getWorkflowStaticData" name).
  rewrite (String.eqb_sym "helpers" name).
  reflexivity.
Qed.

Lemma getSandboxContext_fixed_bindings_example :
  exists g1 g2 bundle proxy,
    Context.Function_bind (Context.getNodeParameter Context.example_caller)
      Context.example_caller = ok g1 /\
    Context.Function_bind (Context.getWorkflowStaticData Context.example_caller)
      Context.example_caller = ok g2 /\
    Context.call_getWorkflowDataProxy Context.example_caller 0 = inr proxy /\
    (forall name,
        Context.lookup_prop name proxy = None ->
        Context.lookup_prop name
          (Context.context_of (Context.getSandboxContext Context.example_caller 0)) =
        if String.eqb name "$getNodeParameter" then Some g1
        else if String.eqb name "$getWorkflowStaticData" then Some g2
        else if String.eqb name "helpers" then Some (Context.CObject bundle)
        else None).
Proof.
  apply (getSandboxContext_fixed_bindings Context.example_caller 0).
  reflexivity.
Defined.

Lemma lookup_spread_fresh (name : string)
    (source : list (string * Context.ContextValue)) :
  NoDup (map fst source) ->
  Context.lookup_prop name (Context.spread source []) = Context.lookup_prop name source.
Proof.
  intros Hnd. destruct (Context.lookup_prop name source) as [v |] eqn:H.
  - exact (lookup_spread_present name v source [] Hnd H).
  - rewrite (lookup_spread_absent name source [] H). reflexivity.
Qed.

(** X20. The helpers bundle of the context: when the data proxy defines
    no [helpers], the context's [helpers] is an object in which
    [httpRequestWithAuthentication] and [requestWithAuthenticationPaginated]
    are the caller's helpers bound to the caller, and in which every other
    name reads exactly as in the caller's helpers: the other helpers pass
    through unchanged and none is added. *)
Theorem getSandboxContext_helpers_bundle (this : Context.ExecuteFunctions) (index : nat)
    (context proxy : list (string * Context.ContextValue)) :
  NoDup (map fst (Context.helpers this)) ->
  Context.getSandboxContext this index = inr context ->
  Context.call_getWorkflowDataProxy this index = inr proxy ->
  Context.lookup_prop "helpers" proxy = None ->
  exists bundle b1 b2,
    Context.lookup_prop "helpers" context = Some (Context.CObject bundle) /\
    Context.Function_bind
      (Context.get_prop (Context.helpers this) "httpRequestWithAuthentication") this =
    ok b1 /\
    Context.Function_bind
      (Context.get_prop (Context.helpers this) "requestWithAuthenticationPaginated") this =
    ok b2 /\
    Context.lookup_prop "httpRequestWithAuthentication" bundle = Some b1 /\
    Context.lookup_prop "requestWithAuthenticationPaginated" bundle = Some b2 /\
    (forall name,
        name <> "httpRequestWithAuthentication" ->
        name <> "requestWithAuthenticationPaginated" ->
        Context.lookup_prop name bundle = Context.lookup_prop name (Context.helpers this)).
Proof.
  intros Hnd Hctx Hcall Hproxy.
  destruct (getSandboxContext_ok_inv this index context Hctx)
    as (b1 & b2 & g1 & g2 & proxy' & Hb1 & Hb2 & _ & _ & Hcall' & ->).
  rewrite Hcall in Hcall'. injection Hcall' as <-.
  eexists _, b1, b2. split; [| split; [exact Hb1 | split; [exact Hb2 | split; [| split]]]].
  - rewrite (lookup_spread_absent "helpers" _ _ Hproxy).
    apply lookup_set_prop_same.
  - rewrite lookup_set_prop_other by discriminate.
    apply lookup_set_prop_same.
  - apply lookup_set_prop_same.
  - intros name Hn1 Hn2.
    rewrite lookup_set_prop_other by congruence.
    rewrite lookup_set_prop_other by congruence.
    exact (lookup_spread_fresh name (Context.helpers this) Hnd).
Qed.

Lemma getSandboxContext_helpers_bundle_example :
  exists bundle b1 b2,
    Context.lookup_prop "helpers"
      (Context.context_of (Context.getSandboxContext Context.example_caller 3)) =
    Some (Context.CObject bundle) /\
    Context.Function_bind
      (Context.get_prop (Context.helpers Context.example_caller)
         "httpRequestWithAuthentication") Context.example_caller = ok b1 /\
    Context.Function_bind
      (Context.get_prop (Context.helpers Context.example_caller)
         "requestWithAuthenticationPaginated") Context.example_caller = ok b2 /\
    Context.lookup_prop "httpRequestWithAuthentication" bundle = Some b1 /\
    Context.lookup_prop "requestWithAuthenticationPaginated" bundle = Some b2 /\
    (forall name,
        name <> "httpRequestWithAuthentication" ->
        name <> "requestWithAuthenticationPaginated" ->
        Context.lookup_prop name bundle =
        Context.lookup_prop name (Context.helpers Context.example_caller)).
Proof.
  apply (getSandboxContext_helpers_bundle Context.example_caller 3 _
           [("$json", Context.CData (VObject [("n", VNumber 3)]));
            ("$itemIndex", Context.CData (VNumber 3))]).
  - simpl. repeat constructor; simpl; intuition discriminate.
  - reflexivity.
  - reflexivity.
  - reflexivity.
Defined.

Example getSandboxContext_example_bound :
  Context.lookup_prop "$getNodeParameter"
    (Context.context_of (Context.getSandboxContext Context.example_caller 3)) =
  Some (Context.CBoundFunction "getNodeParameter" Context.example_caller).
Proof. reflexivity. Qed.

Example getSandboxContext_missing_helper :
  Context.getSandboxContext
    (Context.mkExecuteFunctions
       [("httpRequestWithAuthentication", Context.CFunction "httpRequestWithAuthentication")]
       (Context.CFunction "getNodeParameter")
       (Context.CFunction "getWorkflowStaticData")
       (Some (fun _ => Context.Throws "unreachable"))) 0 =
  inl (Context.EngineException TypeError).
Proof. reflexivity. Qed.

Example getSandboxContext_missing_factory :
  Context.getSandboxContext
    (Context.mkExecuteFunctions
       (Context.helpers Context.example_caller)
       (Context.CFunction "getNodeParameter")
       (Context.CFunction "getWorkflowStaticData")
       None) 0 =
  inl (Context.EngineException TypeError).
Proof. reflexivity. Qed.

(* ================================================================== *)
(** ** The reserved-key error *)
(* ================================================================== *)

Lemma append_inv_head (p a b : string) : p ++ a = p ++ b -> a = b.
Proof.
  induction p as [| c p IH]; simpl; intros H.
  - exact H.
  - injection H as H. exact (IH H).
Qed.

Lemma list_ascii_of_string_append (a b : string) :
  list_ascii_of_string (a ++ b) =
  (list_ascii_of_string a ++ list_ascii_of_string b)%list.
Proof.
  induction a as [| c a IH]; simpl.
  - reflexivity.
  - rewrite IH. reflexivity.
Qed.

Lemma append_inv_tail (a b t : string) : a ++ t = b ++ t -> a = b.
Proof.
  intros H. apply (f_equal list_ascii_of_string) in H.
  rewrite !list_ascii_of_string_append in H. apply app_inv_tail in H.
  rewrite <- (string_of_list_ascii_of_string a), H.
  apply string_of_list_ascii_of_string.
Qed.

(** X15. A [ReservedKeyFoundError] tells which key and which item: two
    such errors are equal only when they were built for the same reserved
    key and the same item index. *)
Theorem ReservedKeyFoundError_names_key_and_item (key key' : string) (index index' : nat) :
  ReservedKeyFoundError key index = ReservedKeyFoundError key' index' ->
  key = key' /\ index = index'.
Proof.
  intros H. split.
  - assert (Hd := f_equal (fun e => match e with
                                    | ReservedKeyFound f => description f
                                    | _ => EmptyString
                                    end) H).
    unfold ReservedKeyFoundError in Hd. cbv beta iota delta [description] in Hd.
    apply append_inv_head in Hd. apply append_inv_tail in Hd. exact Hd.
  - assert (Hi := f_equal carried_index H).
    unfold ReservedKeyFoundError in Hi. cbv beta iota delta [carried_index itemIndex] in Hi.
    injection Hi as Hi. exact Hi.
Qed.

Lemma ReservedKeyFoundError_names_key_and_item_json :
  "json" = "json" /\ 4 = 4.
Proof.
  apply (ReservedKeyFoundError_names_key_and_item "json" "json" 4 4).
  reflexivity.
Defined.

Example ReservedKeyFoundError_message (key : string) (index : nat) :
  carried_index (ReservedKeyFoundError key index) = Some index /\
  is_guard_error (ReservedKeyFoundError key index) = true.
Proof. split; reflexivity. Qed.

(* ================================================================== *)
(** ** The guard pass of all-items mode, for every array *)
(* ================================================================== *)

Lemma keyed_not_nullish (item : Value) :
  has_n8n_key item = true -> is_nullish item = false.
Proof. destruct item; simpl; intros H; try reflexivity; discriminate H. Qed.

(** When the search finds an element with a reserved key, the guarded
    block is the guard loop over the whole array. *)
Lemma guard_array_after_key (elems : list Value) (k : nat) :
  k < List.length elems ->
  has_n8n_key (nth k elems VUndefined) = true ->
  (forall j, j < k -> is_nullish (nth j elems VUndefined) = false) ->
  guard_array elems = forEach_from validateTopLevelKeys 0 elems.
Proof.
  intros Hk Hat Hbefore. unfold guard_array.
  rewrite (Array_some_reaches_key elems k Hk Hat); [reflexivity |].
  intros j Hj. destruct (Nat.eq_dec j k) as [-> | Hne].
  - exact (keyed_not_nullish _ Hat).
  - apply Hbefore. lia.
Qed.

(** The guard pass stops the call at the first element that violates the
    guard. *)
Lemma validateRunCodeAllItems_first_violation (this : Sandbox) (elems : list Value)
    (k m : nat) (e : Exception) :
  k < List.length elems ->
  has_n8n_key (nth k elems VUndefined) = true ->
  (forall j, j < k -> is_nullish (nth j elems VUndefined) = false) ->
  m < List.length elems ->
  (forall j, j < m -> validateTopLevelKeys (nth j elems VUndefined) j = ok tt) ->
  validateTopLevelKeys (nth m elems VUndefined) m = throw e ->
  validateRunCodeAllItems this (VArray elems) = throw e.
Proof.
  intros Hk Hkey Hbefore Hm Hpass Hat.
  rewrite validateRunCodeAllItems_array, (guard_array_after_key elems k Hk Hkey Hbefore).
  rewrite (forEach_from_first_throw validateTopLevelKeys elems 0 m e Hm Hpass Hat).
  reflexivity.
Qed.

(** C1, as the code has it. For every array result handed to
    [validateRunCodeAllItems] the search for a reserved key visits the
    elements in index order.  When an element has an own top-level key in
    the reserved key set and no [null] or [undefined] element precedes it,
    the guard is run on every element in index order before the normalizer
    is called: the call throws what the guard throws on the first element
    that violates it, and goes on to normalization when no element
    violates it.  When no element has such a key and no element is [null]
    or [undefined], the guard is skipped and the call goes straight to
    normalization.  When the search reaches a [null] or [undefined]
    element, one that no element with a reserved key precedes, the call
    throws a [TypeError] and the guard is not run. *)
Theorem validateRunCodeAllItems_guard_pass (this : Sandbox) (elems : list Value) :
  (forall k : nat,
      k < List.length elems ->
      has_n8n_key (nth k elems VUndefined) = true ->
      (forall j, j < k -> is_nullish (nth j elems VUndefined) = false) ->
      (forall (m : nat) (e : Exception),
          m < List.length elems ->
          (forall j, j < m -> validateTopLevelKeys (nth j elems VUndefined) j = ok tt) ->
          validateTopLevelKeys (nth m elems VUndefined) m = throw e ->
          validateRunCodeAllItems this (VArray elems) = throw e) /\
      ((forall j, j < List.length elems ->
                  validateTopLevelKeys (nth j elems VUndefined) j = ok tt) ->
       validateRunCodeAllItems this (VArray elems) =
       normalize_and_validate this (VArray elems))) /\
  (existsb has_n8n_key elems = false ->
   Forall (fun item => is_nullish item = false) elems ->
   validateRunCodeAllItems this (VArray elems) =
   normalize_and_validate this (VArray elems)) /\
  (forall k : nat,
      k < List.length elems ->
      is_nullish (nth k elems VUndefined) = true ->
      (forall j, j < k ->
                 is_nullish (nth j elems VUndefined) = false /\
                 has_n8n_key (nth j elems VUndefined) = false) ->
      validateRunCodeAllItems this (VArray elems) = throw TypeError).
Proof.
  split; [| split].
  - intros k Hk Hkey Hbefore. split.
    + intros m e Hm Hpass Hat.
      exact (validateRunCodeAllItems_first_violation this elems k m e
               Hk Hkey Hbefore Hm Hpass Hat).
    + intros Hall.
      rewrite validateRunCodeAllItems_array,
        (guard_array_after_key elems k Hk Hkey Hbefore).
      rewrite (proj2 (forEach_from_ok validateTopLevelKeys elems 0) Hall).
      reflexivity.
  - intros Hnone Hitems.
    rewrite validateRunCodeAllItems_array, (guard_array_outcome elems Hitems), Hnone.
    reflexivity.
  - intros k Hk Hat Hbefore.
    rewrite validateRunCodeAllItems_array. unfold guard_array.
    rewrite (Array_some_reaches_nullish elems k Hk Hat Hbefore). reflexivity.
Qed.

(** The mixed array of the specification: the second element is refused
    by the guard before the normalizer, here one that always throws, is
    called. *)
Lemma validateRunCodeAllItems_guard_pass_mixed :
  validateRunCodeAllItems failing_sandbox
    (VArray [VObject [("json", VObject [])]; VObject [("notJson", VNumber 1)]]) =
  throw (UnknownTopLevelKey "notJson" 1).
Proof.
  refine (proj1 (proj1 (validateRunCodeAllItems_guard_pass failing_sandbox
            [VObject [("json", VObject [])]; VObject [("notJson", VNumber 1)]])
            0 _ eq_refl _) 1 _ _ _ _).
  - simpl. lia.
  - intros j Hj. lia.
  - simpl. lia.
  - intros j Hj. destruct j as [| j]; [reflexivity | lia].
  - reflexivity.
Defined.

(** C1, refuted as stated: the second element of this array has a
    reserved key and the guard refuses it, yet the guard is not run: the
    search for a reserved key throws a [TypeError] at the [null] that
    comes first. *)
Lemma validateRunCodeAllItems_null_before_key :
  existsb has_n8n_key
    [VNull; VObject [("json", VObject []); ("foo", VNumber 1)]] = true /\
  validateTopLevelKeys VNull 0 = ok tt /\
  validateTopLevelKeys (VObject [("json", VObject []); ("foo", VNumber 1)]) 1 =
  throw (ReservedKeyFoundError "json" 1) /\
  validateRunCodeAllItems object_sandbox
    (VArray [VNull; VObject [("json", VObject []); ("foo", VNumber 1)]]) =
  throw TypeError.
Proof. repeat split. Qed.

(* ================================================================== *)
(** ** Order of the stages *)
(* ================================================================== *)

(** C2, as the code has it. Single-item mode runs the classifier (the
    type gate, then the array gate), the normalizer, the item validator
    and the guard in that order and stops at the first exception: a result
    that is not an object or is an array gets the classifier's error
    whatever the later stages would do; then comes a failure of the
    normalizer, then the error of the item validator on the normalized
    item, then the error of the guard on it; so an item that violates both
    validators gets the item validator's error.  All-items mode runs the
    classifier (the type gate) first; then, for an array in which an
    element has a reserved key and no [null] or [undefined] element
    precedes it, the guard on the raw elements in index order, before the
    normalizer: there the error of the guard on the first element that
    violates it is raised, whatever the normalizer and the item validator
    would do; and once the guard stage has raised nothing the outcome is
    the normalizer's failure or the item validator's verdict on the
    normalized items, no guard being run after normalization. *)
Theorem entry_points_stage_order (this : Sandbox) :
  ((forall (r : Value) (index : nat),
       typeof r <> "object" ->
       validateRunCodeEachItem this r index = throw (NonObjectResult this r index)) /\
   (forall (elems : list Value) (index : nat),
       exists firstSentence : string,
         validateRunCodeEachItem this (VArray elems) index =
         throw (UnexpectedArray this firstSentence index)) /\
   (forall (r : Value) (index : nat),
       typeof r = "object" ->
       Array_isArray r = false ->
       (forall msg : string,
           normalizeItems (helpers this) (VArray [r]) = NormalizerThrows msg ->
           validateRunCodeEachItem this r index = throw (NormalizerFailure msg)) /\
       (forall normalized : list Value,
           normalizeItems (helpers this) (VArray [r]) = Normalized normalized ->
           let returnData := nth 0 normalized VUndefined in
           (forall e : Exception,
               validateItem this returnData index = throw e ->
               validateRunCodeEachItem this r index = throw e) /\
           (forall e : Exception,
               validateItem this returnData index = ok tt ->
               validateTopLevelKeys returnData index = throw e ->
               validateRunCodeEachItem this r index = throw e) /\
           (validateItem this returnData index = ok tt ->
            validateTopLevelKeys returnData index = ok tt ->
            validateRunCodeEachItem this r index = ok returnData)))) /\
  ((forall r : Value,
       typeof r <> "object" ->
       validateRunCodeAllItems this r = throw (ItemsNotReturnedProperly this)) /\
   (forall (elems : list Value) (k m : nat) (e : Exception),
       k < List.length elems ->
       has_n8n_key (nth k elems VUndefined) = true ->
       (forall j, j < k -> is_nullish (nth j elems VUndefined) = false) ->
       m < List.length elems ->
       (forall j, j < m -> validateTopLevelKeys (nth j elems VUndefined) j = ok tt) ->
       validateTopLevelKeys (nth m elems VUndefined) m = throw e ->
       validateRunCodeAllItems this (VArray elems) = throw e) /\
   (forall r : Value,
       typeof r = "object" ->
       (forall elems, r = VArray elems -> guard_array elems = ok tt) ->
       validateRunCodeAllItems this r =
       match normalizeItems (helpers this) r with
       | NormalizerThrows msg => throw (NormalizerFailure msg)
       | Normalized items => forEach (validateItem this) items ;;; ok items
       end)).
Proof.
  split; [split; [| split] | split; [| split]].
  - intros r index Hgate. unfold validateRunCodeEachItem, NonObjectResult.
    rewrite getTextKey_with_article.
    destruct (typeof_not_object r Hgate) as [-> | [[b ->] | [[n ->] | [s ->]]]];
      reflexivity.
  - intros elems index. eexists.
    destruct elems as [| first rest]; reflexivity.
  - intros r index Htype Harray.
    rewrite (validateRunCodeEachItem_single this r index Htype Harray).
    unfold call_normalizeItems. split.
    + intros msg Hn. rewrite Hn. reflexivity.
    + intros normalized Hn. cbv zeta. rewrite Hn, bind_ok.
      split; [| split].
      * intros e He. rewrite He. reflexivity.
      * intros e Hitem Hguard. rewrite Hitem, Hguard. reflexivity.
      * intros Hitem Hguard. rewrite Hitem, Hguard. reflexivity.
  - intros r Hgate.
    destruct (typeof_not_object r Hgate) as [-> | [[b ->] | [[n ->] | [s ->]]]];
      reflexivity.
  - intros elems k m e Hk Hkey Hbefore Hm Hpass Hat.
    exact (validateRunCodeAllItems_first_violation this elems k m e
             Hk Hkey Hbefore Hm Hpass Hat).
  - intros r Htype Hguard.
    unfold validateRunCodeAllItems. rewrite Htype. simpl.
    assert (Hstage : match r with
                     | VArray elems => guard_array elems
                     | _ => ok tt
                     end = ok tt).
    { destruct r; try reflexivity. apply Hguard. reflexivity. }
    rewrite Hstage, bind_ok. apply normalize_and_validate_outcome.
Qed.

(** In single-item mode an item that violates both validators gets the
    item validator's error. *)
Lemma entry_points_stage_order_single_item :
  validateTopLevelKeys (VObject [("json", VNumber 1); ("foo", VNumber 2)]) 0 =
  throw (ReservedKeyFoundError "json" 0) /\
  validateRunCodeEachItem object_sandbox
    (VObject [("json", VNumber 1); ("foo", VNumber 2)]) 0 =
  throw (MalformedJsonField object_sandbox 0).
Proof.
  split; [reflexivity |].
  refine (proj1 (proj2 (proj2 (proj2 (proj1 (entry_points_stage_order object_sandbox)))
            (VObject [("json", VNumber 1); ("foo", VNumber 2)]) 0 eq_refl eq_refl)
            [VObject [("json", VNumber 1); ("foo", VNumber 2)]] eq_refl) _ _).
  reflexivity.
Defined.
